(** * Strix proxy configuration: a shallow embedding of [strix/proxy_config.py]

    The module holds three optional proxy URLs, validates them when a
    [ProxyConfig] is constructed, resolves the URL to use for tool and for
    LLM traffic, renders it for [requests], [httpx] and [litellm], and keeps
    one process-wide instance.

    Python values are modelled as follows:
    - [str | None] is [option string]; truthiness ([if x:], [not x], [or])
      is written out ([None] and the empty string are falsy);
    - a [dict[str, str]] is an association list in insertion order, the
      order [items()] iterates in;
    - exceptions are values of [exn], carrying their class, message and
      [__cause__]; a computation that may raise returns a [Result];
    - [os.environ] is a finite map from names to values;
    - code that reads or writes [os.environ] or the module global is a
      function on [World] (state passing with errors);
    - [urllib.parse.urlparse] is a library function: the definitions and
      theorems are parameterised by it, and [urlparse_model] is an instance
      used for the concrete runs. *)

From Stdlib Require Import ZArith Ascii String List Bool.
From stdpp Require Import base option gmap strings.

Import ListNotations.
Local Open Scope string_scope.

(** ** Exceptions and results *)

(** A raised Python exception: its class name, its message and the exception
    it was raised [from]. Only subclasses of [Exception] are represented,
    so [except Exception] catches every [exn]. *)
#[warnings="-register-all"]
Inductive exn : Type :=
| Exn (cls : string) (msg : string) (cause : option exn).

Definition ValueError (msg : string) (cause : option exn) : exn :=
  Exn "ValueError" msg cause.

Definition exn_msg (e : exn) : string := match e with Exn _ m _ => m end.

Inductive Result (A : Type) : Type :=
| Ok (a : A)
| Raised (e : exn).

Arguments Ok {A} a.
Arguments Raised {A} e.

#[global] Instance Result_ret : MRet Result := fun A a => Ok a.

#[global] Instance Result_bind : MBind Result := fun A B k m =>
  match m with
  | Ok a => k a
  | Raised e => Raised e
  end.

(** [try: body except Exception as e: handler e] *)
Definition try_except {A} (body : Result A) (handler : exn -> Result A) : Result A :=
  match body with
  | Ok a => Ok a
  | Raised e => handler e
  end.

Definition is_ok {A} (r : Result A) : bool :=
  match r with Ok _ => true | Raised _ => false end.

(** ** Python truthiness and containers *)

(** [bool(s)] for a [str]. *)
Definition str_truthy (s : string) : bool :=
  match s with
  | EmptyString => false
  | String _ _ => true
  end.

(** [bool(x)] for a [str | None]. *)
Definition truthy (x : option string) : bool :=
  match x with
  | Some s => str_truthy s
  | None => false
  end.

(** [bool(n)] for an [int | None]. *)
Definition int_truthy (n : option Z) : bool :=
  match n with
  | Some z => negb (z =? 0)%Z
  | None => false
  end.

(** [a or b] on [str | None]. *)
Definition py_or (a b : option string) : option string :=
  if truthy a then a else b.

(** [s in l] for a list of strings. *)
Definition str_in (s : string) (l : list string) : bool :=
  existsb (String.eqb s) l.

(** A [dict[str, str]], in insertion order. *)
Definition dict : Type := list (string * string).

(** [d[k] = v] *)
Fixpoint dict_set (d : dict) (k v : string) : dict :=
  match d with
  | [] => [(k, v)]
  | (k', v') :: d' =>
      if String.eqb k' k then (k', v) :: d' else (k', v') :: dict_set d' k v
  end.

Fixpoint dict_get (d : dict) (k : string) : option string :=
  match d with
  | [] => None
  | (k', v') :: d' => if String.eqb k' k then Some v' else dict_get d' k
  end.

(** ** The URL parser interface *)

(** What the module reads from the value [urlparse] returns: the [scheme]
    attribute and the [hostname] and [port] properties. [port] is computed
    on access and raises [ValueError] for a port that is not a number in
    0..65535. *)
Record ParseResult : Type := {
  scheme : string;
  hostname : option string;
  port : Result (option Z)
}.

(** ** A parser instance

    [urlparse_model] follows CPython's [urllib.parse.urlsplit] (the part
    [urlparse] delegates to for scheme and network location) and the
    [hostname] and [port] properties of its result, on ASCII text. Two
    checks of the library are outside the model: the address check on the
    text between brackets and the NFKC check of a non-ASCII network
    location; the instance is only run on bracket-free ASCII input. The
    port property is modelled for port texts of at most 4300 digits (the
    library's [int] refuses longer ones), and its "could not be cast"
    message quotes the port text in single quotes, as the library's [repr]
    does for a text without quotes or escapes. *)
Module UrlLib.

Definition ascii_in_range (lo hi : nat) (a : ascii) : bool :=
  ((lo <=? nat_of_ascii a) && (nat_of_ascii a <=? hi))%nat.

Definition is_upper : ascii -> bool := ascii_in_range 65 90.
Definition is_lower : ascii -> bool := ascii_in_range 97 122.
Definition is_digit : ascii -> bool := ascii_in_range 48 57.
Definition is_alpha (a : ascii) : bool := is_upper a || is_lower a.

(** [_WHATWG_C0_CONTROL_OR_SPACE] *)
Definition is_c0_or_space : ascii -> bool := ascii_in_range 0 32.

(** [_UNSAFE_URL_BYTES_TO_REMOVE]: tab, carriage return, line feed *)
Definition is_unsafe (a : ascii) : bool :=
  let n := nat_of_ascii a in ((n =? 9) || (n =? 13) || (n =? 10))%nat.

(** [scheme_chars] *)
Definition is_scheme_char (a : ascii) : bool :=
  is_alpha a || is_digit a
  || Ascii.eqb a "+" || Ascii.eqb a "-" || Ascii.eqb a ".".

Definition lower_ascii (a : ascii) : ascii :=
  if is_upper a then ascii_of_nat (nat_of_ascii a + 32) else a.

Fixpoint lower (s : string) : string :=
  match s with
  | EmptyString => EmptyString
  | String a r => String (lower_ascii a) (lower r)
  end.

Fixpoint str_forallb (p : ascii -> bool) (s : string) : bool :=
  match s with
  | EmptyString => true
  | String a r => p a && str_forallb p r
  end.

Fixpoint str_existsb (p : ascii -> bool) (s : string) : bool :=
  match s with
  | EmptyString => false
  | String a r => p a || str_existsb p r
  end.

Fixpoint str_filter (p : ascii -> bool) (s : string) : string :=
  match s with
  | EmptyString => EmptyString
  | String a r => if p a then String a (str_filter p r) else str_filter p r
  end.

(** [s.lstrip(chars)] *)
Fixpoint lstrip (p : ascii -> bool) (s : string) : string :=
  match s with
  | EmptyString => EmptyString
  | String a r => if p a then lstrip p r else s
  end.

(** [s.partition(c)]: the text before the first [c], whether [c] was
    found, and the text after it. *)
Fixpoint partition (c : ascii) (s : string) : string * bool * string :=
  match s with
  | EmptyString => (EmptyString, false, EmptyString)
  | String a r =>
      if Ascii.eqb a c then (EmptyString, true, r)
      else let '(h, found, t) := partition c r in (String a h, found, t)
  end.

(** [s.rpartition(c)]: split at the last [c]; when there is none the
    whole text is the third component. *)
Fixpoint rpartition (c : ascii) (s : string) : string * bool * string :=
  match s with
  | EmptyString => (EmptyString, false, EmptyString)
  | String a r =>
      let '(h, found, t) := rpartition c r in
      if found then (String a h, true, t)
      else if Ascii.eqb a c then (EmptyString, true, r)
      else (EmptyString, false, String a t)
  end.

(** The text up to the first of [/], [?] and [#]: [_splitnetloc]. *)
Fixpoint take_netloc (s : string) : string :=
  match s with
  | EmptyString => EmptyString
  | String a r =>
      if Ascii.eqb a "/" || Ascii.eqb a "?" || Ascii.eqb a "#"
      then EmptyString else String a (take_netloc r)
  end.

(** [int(s)] for a text of decimal digits. *)
Definition int_of_digits (s : string) : Z :=
  fold_left (fun acc a => (10 * acc + Z.of_nat (nat_of_ascii a - 48))%Z)
            (list_ascii_of_string s) 0%Z.

(** The scheme and the rest of the URL. *)
Definition split_scheme (url : string) : string * string :=
  match partition ":" url with
  | (String a0 pre, true, rest) =>
      if is_alpha a0 && str_forallb is_scheme_char (String a0 pre)
      then (lower (String a0 pre), rest)
      else (EmptyString, url)
  | _ => (EmptyString, url)
  end.

(** The network location, or the error of an unbalanced bracket. *)
Definition split_netloc (url : string) : Result string :=
  match url with
  | String "/" (String "/" r) =>
      let netloc := take_netloc r in
      let has_open := str_existsb (Ascii.eqb "[") netloc in
      let has_close := str_existsb (Ascii.eqb "]") netloc in
      if (has_open && negb has_close) || (has_close && negb has_open)
      then Raised (ValueError "Invalid IPv6 URL" None)
      else Ok netloc
  | _ => Ok EmptyString
  end.

(** [_hostinfo]: host text and port text of a network location. *)
Definition hostinfo (netloc : string) : string * option string :=
  let '(_, _, hostinfo) := rpartition "@" netloc in
  let '(_, have_open_br, bracketed) := partition "[" hostinfo in
  let '(hostname, port) :=
    if have_open_br then
      let '(hostname, _, port) := partition "]" bracketed in
      let '(_, _, port) := partition ":" port in
      (hostname, port)
    else
      let '(hostname, _, port) := partition ":" hostinfo in
      (hostname, port) in
  (hostname, if str_truthy port then Some port else None).

(** The [hostname] property. *)
Definition hostname_of (netloc : string) : option string :=
  let hostname := fst (hostinfo netloc) in
  if negb (str_truthy hostname) then None
  else
    let '(hostname, percent, zone) := partition "%" hostname in
    Some (lower hostname +:+ (if percent then "%" else "") +:+ zone).

(** The [port] property. *)
Definition port_of (netloc : string) : Result (option Z) :=
  match snd (hostinfo netloc) with
  | None => Ok None
  | Some port =>
      if str_forallb is_digit port then
        let n := int_of_digits port in
        if ((0 <=? n) && (n <=? 65535))%Z then Ok (Some n)
        else Raised (ValueError "Port out of range 0-65535" None)
      else
        Raised (ValueError
          ("Port could not be cast to integer value as '" +:+ port +:+ "'") None)
  end.

Definition urlparse_model (url : string) : Result ParseResult :=
  let url := lstrip is_c0_or_space url in
  let url := str_filter (fun a => negb (is_unsafe a)) url in
  let '(scheme, url) := split_scheme url in
  netloc ← split_netloc url;
  mret {| scheme := scheme;
          hostname := hostname_of netloc;
          port := port_of netloc |}.

End UrlLib.

(** ** The configuration object *)

(** The dataclass [ProxyConfig]: three optional proxy URLs. *)
Record ProxyConfig : Type := {
  tools_proxy : option string;
  llm_proxy : option string;
  all_proxy : option string
}.

(** A [ProxyConfig] object together with its identity, so that [is] can be
    told from [==]. *)
Record Instance : Type := {
  oid : nat;
  obj : ProxyConfig
}.

(** The process state the module touches: [os.environ], the allocator of
    object identities, and the module global [_global_proxy_config]. *)
Record World : Type := {
  environ : gmap string string;
  next_oid : nat;
  _global_proxy_config : option Instance
}.

(** Stateful code that may raise. The state reached when the exception is
    raised is kept: writes made before it are not undone. *)
Definition Py (A : Type) : Type := World -> Result A * World.

#[global] Instance Py_ret : MRet Py := fun A a w => (Ok a, w).

#[global] Instance Py_bind : MBind Py := fun A B k m w =>
  match m w with
  | (Ok a, w') => k a w'
  | (Raised e, w') => (Raised e, w')
  end.

(** Running pure code that may raise inside stateful code. *)
Definition lift {A} (r : Result A) : Py A := fun w => (r, w).

(** [os.getenv(name)] *)
Definition getenv (name : string) : Py (option string) :=
  fun w => (Ok (environ w !! name), w).

(** [os.environ[key] = value]. The assignment only refuses a name or value
    the operating system cannot hold (an embedded NUL, [=] in the name);
    the module assigns two fixed names and values it has read from the
    environment, so the write is modelled as total. *)
Definition setenv (key value : string) : Py unit :=
  fun w => (Ok tt, {| environ := <[key := value]> (environ w);
                      next_oid := next_oid w;
                      _global_proxy_config := _global_proxy_config w |}).

(** Reading and assigning the module global. *)
Definition read_global : Py (option Instance) :=
  fun w => (Ok (_global_proxy_config w), w).

Definition write_global (v : option Instance) : Py unit :=
  fun w => (Ok tt, {| environ := environ w;
                      next_oid := next_oid w;
                      _global_proxy_config := v |}).

(** Object creation: a fresh identity for the object under construction. *)
Definition fresh_oid : Py nat :=
  fun w => (Ok (next_oid w), {| environ := environ w;
                                next_oid := S (next_oid w);
                                _global_proxy_config := _global_proxy_config w |}).

(** [for key, value in d.items(): body key value] *)
Fixpoint for_items (d : dict) (body : string -> string -> Py unit) : Py unit :=
  match d with
  | [] => mret tt
  | (key, value) :: d' => body key value;; for_items d' body
  end.

(** [for x in l: body x] in code that may raise. *)
Fixpoint for_each {A} (l : list A) (body : A -> Result unit) : Result unit :=
  match l with
  | [] => mret tt
  | x :: l' => body x;; for_each l' body
  end.

(** What an outside actor does to the environment between two calls. *)
Definition with_environ (E : gmap string string) (w : World) : World :=
  {| environ := E;
     next_oid := next_oid w;
     _global_proxy_config := _global_proxy_config w |}.

(** An environment and a fresh process state for the concrete runs. *)
Definition env0 : gmap string string :=
  <["STRIX_PROXY_LLM" := "http://p:8080"]>
    (<["HTTP_PROXY" := "http://old:3128"]>
       (<["PATH" := "/usr/bin"]> ∅)).

Definition world0 : World :=
  {| environ := env0; next_oid := 0; _global_proxy_config := None |}.

(** The configuration loaded from [env0] and the object the first load in
    [world0] creates. *)
Definition config0 : ProxyConfig :=
  {| tools_proxy := None; llm_proxy := Some "http://p:8080"; all_proxy := None |}.

Definition instance0 : Instance := {| oid := 0; obj := config0 |}.

(** The environment after the entries of [d] have been assigned in order. *)
Definition write_items (d : dict) (E : gmap string string) : gmap string string :=
  fold_left (λ E item, <[item.1 := item.2]> E) d E.

(** The state after an object has been created. *)
Definition after_alloc (w : World) : World :=
  {| environ := environ w;
     next_oid := S (next_oid w);
     _global_proxy_config := _global_proxy_config w |}.

(** The state after the module global has been assigned. *)
Definition with_global (v : option Instance) (w : World) : World :=
  {| environ := environ w;
     next_oid := next_oid w;
     _global_proxy_config := v |}.

(** A process state whose LLM setting lacks a port, and one with no proxy
    setting at all but an inherited [HTTP_PROXY]. *)
Definition world_bad : World :=
  {| environ := <["STRIX_PROXY_LLM" := "http://p"]> (<["PATH" := "/usr/bin"]> ∅);
     next_oid := 0;
     _global_proxy_config := None |}.

Definition world_unset : World :=
  {| environ := <["STRIX_PROXY_TOOLS" := ""]>
                  (<["HTTP_PROXY" := "http://old:3128"]> ∅);
     next_oid := 0;
     _global_proxy_config := None |}.

(** The three variables [load_proxy_config] reads. *)
Definition proxy_variables : list string :=
  ["STRIX_PROXY_TOOLS"; "STRIX_PROXY_LLM"; "STRIX_PROXY_ALL"].

Ltac rstep :=
  cbn [mbind mret Result_bind Result_ret Py_bind Py_ret try_except negb].

Section Proxy.

(** [urllib.parse.urlparse] *)
Variable urlparse : string -> Result ParseResult.

Definition supported_schemes : list string :=
  ["http"; "https"; "socks5"; "socks5h"].

(** [ProxyConfig._validate_proxy_url]; [self] is not used by the method.
    The three [raise] statements are inside the [try], so the handler
    catches them as it catches what [urlparse] and [port] raise. *)
Definition _validate_proxy_url (proxy_url env_var_name : string) : Result unit :=
  try_except
    (parsed ← urlparse proxy_url;
     (if negb (str_in (scheme parsed) supported_schemes) then
        Raised (ValueError
          ("Invalid proxy scheme in " +:+ env_var_name +:+ ": "
             +:+ scheme parsed +:+ ". "
             +:+ "Supported schemes: http, https, socks5, socks5h") None)
      else mret tt);;
     (if negb (truthy (hostname parsed)) then
        Raised (ValueError
          ("Missing hostname in " +:+ env_var_name +:+ ": " +:+ proxy_url) None)
      else mret tt);;
     p ← port parsed;
     (if negb (int_truthy p) then
        Raised (ValueError
          ("Missing port in " +:+ env_var_name +:+ ": " +:+ proxy_url) None)
      else mret tt))
    (fun e =>
       Raised (ValueError
         ("Invalid proxy URL in " +:+ env_var_name +:+ ": " +:+ proxy_url)
         (Some e))).

(** The body of the loop of [__post_init__]:
    [if proxy_url: self._validate_proxy_url(proxy_url, proxy_name)]. *)
Definition post_init_body (item : string * option string) : Result unit :=
  let '(proxy_name, proxy_url) := item in
  match proxy_url with
  | Some u => if str_truthy u then _validate_proxy_url u proxy_name
              else mret tt
  | None => mret tt
  end.

(** [ProxyConfig.__post_init__] *)
Definition __post_init__ (self : ProxyConfig) : Result unit :=
  for_each
    [("STRIX_PROXY_TOOLS", tools_proxy self);
     ("STRIX_PROXY_LLM", llm_proxy self);
     ("STRIX_PROXY_ALL", all_proxy self)]
    post_init_body.

(** The generated [__init__]: the fields are assigned, then
    [__post_init__] runs; the object exists only if it does not raise. *)
Definition ProxyConfig_init (tools llm all : option string) : Result ProxyConfig :=
  let self := {| tools_proxy := tools; llm_proxy := llm; all_proxy := all |} in
  __post_init__ self;;
  mret self.

(** [ProxyConfig.get_tools_proxy] *)
Definition get_tools_proxy (self : ProxyConfig) : option string :=
  py_or (tools_proxy self) (all_proxy self).

(** [ProxyConfig.get_llm_proxy] *)
Definition get_llm_proxy (self : ProxyConfig) : option string :=
  py_or (llm_proxy self) (all_proxy self).

(** [ProxyConfig.get_requests_proxies] *)
Definition get_requests_proxies (self : ProxyConfig) (proxy_type : string)
  : option dict :=
  let proxy_url :=
    if String.eqb proxy_type "tools" then get_tools_proxy self
    else get_llm_proxy self in
  match proxy_url with
  | Some u => if str_truthy u then Some [("http", u); ("https", u)] else None
  | None => None
  end.

(** [ProxyConfig.get_httpx_proxies] *)
Definition get_httpx_proxies (self : ProxyConfig) (proxy_type : string)
  : Result (option dict) :=
  let proxy_url :=
    if String.eqb proxy_type "tools" then get_tools_proxy self
    else get_llm_proxy self in
  match proxy_url with
  | Some u =>
      if str_truthy u then
        parsed ← urlparse u;
        if str_in (scheme parsed) ["socks5"; "socks5h"]
        then mret (Some [("_socks_proxy", u)])
        else mret (Some [("http://", u); ("https://", u)])
      else mret None
  | None => mret None
  end.

(** [ProxyConfig.get_litellm_proxy_env] *)
Definition get_litellm_proxy_env (self : ProxyConfig) : dict :=
  let env_vars : dict := [] in
  let llm_proxy := get_llm_proxy self in
  match llm_proxy with
  | Some u =>
      if str_truthy u then
        let env_vars := dict_set env_vars "HTTP_PROXY" u in
        let env_vars := dict_set env_vars "HTTPS_PROXY" u in
        env_vars
      else env_vars
  | None => env_vars
  end.

(** The call [ProxyConfig(tools_proxy=.., llm_proxy=.., all_proxy=..)]. *)
Definition new_ProxyConfig (tools llm all : option string) : Py Instance :=
  i ← fresh_oid;
  self ← lift (ProxyConfig_init tools llm all);
  mret {| oid := i; obj := self |}.

(** [load_proxy_config] *)
Definition load_proxy_config : Py Instance :=
  tools ← getenv "STRIX_PROXY_TOOLS";
  llm ← getenv "STRIX_PROXY_LLM";
  all ← getenv "STRIX_PROXY_ALL";
  new_ProxyConfig tools llm all.

(** [configure_global_proxies] *)
Definition configure_global_proxies : Py Instance :=
  config ← load_proxy_config;
  let llm_proxy_env := get_litellm_proxy_env (obj config) in
  for_items llm_proxy_env (fun key value => setenv key value);;
  mret config.

(** [get_proxy_config] *)
Definition get_proxy_config : Py (option Instance) :=
  g ← read_global;
  match g with
  | None =>
      config ← configure_global_proxies;
      write_global (Some config)
  | Some _ => mret tt
  end;;
  read_global.

(** *** Specification-side notions

    The definitions below follow the documentation's wording; the
    theorems compare them with the code above. *)

(** A URL that parses with a supported scheme, a non-empty hostname and
    an explicit, non-zero port. *)
Definition spec_valid_url (u : string) : Prop :=
  ∃ p, urlparse u = Ok p
       ∧ In (scheme p) supported_schemes
       ∧ (∃ h, hostname p = Some h ∧ h ≠ "")
       ∧ (∃ n, port p = Ok (Some n) ∧ n ≠ 0%Z).

(** Every present field is a valid URL. *)
Definition spec_present_fields_valid (tools llm all : option string) : Prop :=
  ∀ u, In (Some u) [tools; llm; all] → spec_valid_url u.

(** Every present field other than the empty string is a valid URL. *)
Definition nonempty_fields_valid (tools llm all : option string) : Prop :=
  ∀ u, In (Some u) [tools; llm; all] → u ≠ "" → spec_valid_url u.

(** Precedence as documented: the specific setting if present, else the
    catch-all, else absent. *)
Definition spec_effective (specific all : option string) : option string :=
  match specific with
  | Some u => Some u
  | None => all
  end.

(** The two traffic classes and the names the methods take for them. *)
Inductive TrafficClass : Type := Tools | Llm.

Definition class_name (k : TrafficClass) : string :=
  match k with
  | Tools => "tools"
  | Llm => "llm"
  end.

Definition effective_proxy (self : ProxyConfig) (k : TrafficClass) : option string :=
  match k with
  | Tools => get_tools_proxy self
  | Llm => get_llm_proxy self
  end.

(** The class-specific field of a traffic class. *)
Definition specific_proxy (self : ProxyConfig) (k : TrafficClass) : option string :=
  match k with
  | Tools => tools_proxy self
  | Llm => llm_proxy self
  end.

(** The URL [u] is what the configuration selects for the class [k]: the
    class-specific field when it is set, else the catch-all. *)
Definition selects (self : ProxyConfig) (k : TrafficClass) (u : string) : Prop :=
  u ≠ ""
  ∧ (specific_proxy self k = Some u
     ∨ (truthy (specific_proxy self k) = false ∧ all_proxy self = Some u)).

(** The two shapes [get_httpx_proxies] returns for a URL with the parsed
    scheme [sch]. *)
Definition httpx_map (sch u : string) : dict :=
  if str_in sch ["socks5"; "socks5h"] then [("_socks_proxy", u)]
  else [("http://", u); ("https://", u)].

(** There is nothing to route through: the resolved value is [None] or
    the empty string, the two values [if not proxy_url] rejects. *)
Definition no_effective_proxy (self : ProxyConfig) (k : TrafficClass) : Prop :=
  effective_proxy self k = None ∨ effective_proxy self k = Some "".

(** The low-level parse failures: the parser raises, or the port
    property of its result does. A URL that parses and only lacks a
    component is not one of them. *)
Definition parse_failure (u : string) : Prop :=
  (∃ e, urlparse u = Raised e)
  ∨ (∃ p e, urlparse u = Ok p ∧ port p = Raised e).

(** The exception the handler of [_validate_proxy_url] receives for the
    URL [u] of the field [name]: what the parser or the port property
    raised, or the [ValueError] of the failed check. *)
Inductive handled (u name : string) : exn → Prop :=
| handled_parse e :
    urlparse u = Raised e → handled u name e
| handled_scheme p :
    urlparse u = Ok p →
    ¬ In (scheme p) supported_schemes →
    handled u name
      (ValueError ("Invalid proxy scheme in " +:+ name +:+ ": "
                     +:+ scheme p +:+ ". "
                     +:+ "Supported schemes: http, https, socks5, socks5h") None)
| handled_hostname p :
    urlparse u = Ok p →
    In (scheme p) supported_schemes →
    truthy (hostname p) = false →
    handled u name (ValueError ("Missing hostname in " +:+ name +:+ ": " +:+ u) None)
| handled_port_raised p e :
    urlparse u = Ok p →
    In (scheme p) supported_schemes →
    truthy (hostname p) = true →
    port p = Raised e →
    handled u name e
| handled_port p n :
    urlparse u = Ok p →
    In (scheme p) supported_schemes →
    truthy (hostname p) = true →
    port p = Ok n →
    int_truthy n = false →
    handled u name (ValueError ("Missing port in " +:+ name +:+ ": " +:+ u) None).

(** The fields in the order [__post_init__] visits them. *)
Definition named_fields (tools llm all : option string) : list (string * option string) :=
  [("STRIX_PROXY_TOOLS", tools); ("STRIX_PROXY_LLM", llm); ("STRIX_PROXY_ALL", all)].

(** A field that [__post_init__] lets pass. *)
Definition field_passes (f : option string) : Prop :=
  ∀ u, f = Some u → u ≠ "" → spec_valid_url u.

(** The empty string replaced by [None]. *)
Definition blank_to_none (f : option string) : option string :=
  if truthy f then f else None.

Definition normalise (c : ProxyConfig) : ProxyConfig :=
  {| tools_proxy := blank_to_none (tools_proxy c);
     llm_proxy := blank_to_none (llm_proxy c);
     all_proxy := blank_to_none (all_proxy c) |}.

(** *** Validation of one URL *)

Lemma str_in_In (s : string) (l : list string) : str_in s l = true ↔ In s l.
Proof.
  unfold str_in. rewrite existsb_exists. split.
  - intros (x & Hx & Heq). apply String.eqb_eq in Heq. by subst.
  - intros Hin. exists s. split; [done | apply String.eqb_refl].
Qed.

Lemma str_in_not_In (s : string) (l : list string) : str_in s l = false ↔ ¬ In s l.
Proof.
  rewrite <- str_in_In. destruct (str_in s l); split; intros; congruence.
Qed.

Lemma str_truthy_true (s : string) : str_truthy s = true ↔ s ≠ "".
Proof. destruct s; simpl; split; intros; congruence. Qed.

Lemma str_truthy_false (s : string) : str_truthy s = false ↔ s = "".
Proof. destruct s; simpl; split; intros; congruence. Qed.

Lemma truthy_true (f : option string) :
  truthy f = true ↔ ∃ u, f = Some u ∧ u ≠ "".
Proof.
  destruct f as [u|]; simpl.
  - rewrite str_truthy_true. split; [eauto | intros (? & [= <-] & ?); done].
  - split; [done | intros (? & ? & ?); done].
Qed.

Lemma truthy_false (f : option string) :
  truthy f = false ↔ f = None ∨ f = Some "".
Proof.
  destruct f as [[|]|]; simpl; split; intros; auto; try congruence.
  destruct H; congruence.
Qed.

Lemma int_truthy_true (n : option Z) :
  int_truthy n = true ↔ ∃ z, n = Some z ∧ z ≠ 0%Z.
Proof.
  destruct n as [z|]; simpl.
  - rewrite negb_true_iff, Z.eqb_neq.
    split; [eauto | intros (? & [= <-] & ?); done].
  - split; [done | intros (? & ? & ?); done].
Qed.

(** Validation passes exactly on the valid URLs. *)
Lemma validate_ok_iff (u name : string) :
  _validate_proxy_url u name = Ok tt ↔ spec_valid_url u.
Proof.
  unfold _validate_proxy_url, spec_valid_url.
  destruct (urlparse u) as [p|e0]; rstep.
  2: { split; [done | intros (? & ? & _); done]. }
  destruct (str_in (scheme p) supported_schemes) eqn:Hs; rstep.
  2: { apply str_in_not_In in Hs. split; [done|].
       intros (? & [= <-] & ? & _). done. }
  apply str_in_In in Hs.
  destruct (truthy (hostname p)) eqn:Hh; rstep.
  2: { split; [done|]. intros (? & [= <-] & _ & (h & Hh' & Hne) & _).
       rewrite Hh' in Hh. simpl in Hh. apply str_truthy_false in Hh. done. }
  apply truthy_true in Hh.
  destruct (port p) as [n|e0] eqn:Hp; rstep.
  2: { split; [done|]. intros (? & [= <-] & _ & _ & (n & Hn & _)). congruence. }
  destruct (int_truthy n) eqn:Hn; rstep.
  - apply int_truthy_true in Hn as (z & -> & Hz).
    split; [|done]. intros _. exists p. rewrite Hp. eauto 10.
  - split; [done|]. intros (? & [= <-] & _ & _ & (z & Hz & Hz0)).
    rewrite Hp in Hz. injection Hz as ->. simpl in Hn.
    apply negb_false_iff, Z.eqb_eq in Hn. done.
Qed.

(** Validation raises exactly the wrapping [ValueError], whose cause is
    the exception the handler received. *)
Lemma validate_raised_iff (u name : string) (e : exn) :
  _validate_proxy_url u name = Raised e ↔
  ∃ cause, handled u name cause
           ∧ e = ValueError ("Invalid proxy URL in " +:+ name +:+ ": " +:+ u)
                            (Some cause).
Proof.
  unfold _validate_proxy_url. split.
  - destruct (urlparse u) as [p|e0] eqn:Hu; rstep.
    2: { intros [= <-]. eexists. split; [by apply handled_parse | done]. }
    destruct (str_in (scheme p) supported_schemes) eqn:Hs; rstep.
    2: { apply str_in_not_In in Hs. intros [= <-].
         eexists. split; [by eapply handled_scheme | done]. }
    apply str_in_In in Hs.
    destruct (truthy (hostname p)) eqn:Hh; rstep.
    2: { intros [= <-]. eexists. split; [by eapply handled_hostname | done]. }
    destruct (port p) as [n|e0] eqn:Hp; rstep.
    2: { intros [= <-]. eexists. split; [by eapply handled_port_raised | done]. }
    destruct (int_truthy n) eqn:Hn; simpl; [done|].
    intros [= <-]. eexists. split; [by eapply handled_port | done].
  - intros (cause & Hc & ->).
    destruct Hc as [e0 Hu | p Hu Hs | p Hu Hs Hh | p e0 Hu Hs Hh Hp | p n Hu Hs Hh Hp Hn];
      rewrite Hu; rstep; try done;
      [ apply str_in_not_In in Hs | apply str_in_In in Hs ..];
      rewrite Hs; rstep; try done;
      rewrite Hh; rstep; try done;
      rewrite Hp; rstep; try done.
    by rewrite Hn.
Qed.

(** *** Validation of the three fields *)

Lemma post_init_body_ok (name : string) (f : option string) :
  post_init_body (name, f) = Ok tt ↔ field_passes f.
Proof.
  unfold post_init_body, field_passes.
  destruct f as [u|]; [|split; [intros _ ? [=] | done]].
  destruct (str_truthy u) eqn:Hu.
  - rewrite validate_ok_iff. apply str_truthy_true in Hu.
    split; [intros Hv ? [= <-] _; done | eauto].
  - apply str_truthy_false in Hu. split; [intros _ ? [= <-] ?; done | done].
Qed.

Lemma post_init_body_raised (name : string) (f : option string) (e : exn) :
  post_init_body (name, f) = Raised e ↔
  ∃ u, f = Some u ∧ u ≠ "" ∧ _validate_proxy_url u name = Raised e.
Proof.
  unfold post_init_body.
  destruct f as [u|]; [|split; [done | intros (? & ? & _); done]].
  destruct (str_truthy u) eqn:Hu.
  - apply str_truthy_true in Hu. split; [eauto | intros (? & [= <-] & _ & ?); done].
  - apply str_truthy_false in Hu. split; [done | intros (? & [= <-] & ? & _); done].
Qed.

(** The loop passes when every item passes. *)
Lemma for_each_fields_ok (l : list (string * option string)) :
  for_each l post_init_body = Ok tt ↔ Forall (λ item, field_passes item.2) l.
Proof.
  induction l as [|[name f] l IH]; cbn [for_each].
  - split; [constructor | done].
  - rewrite Forall_cons. rewrite <- IH. cbn [snd].
    destruct (post_init_body (name, f)) as [[]|e] eqn:Hb; rstep.
    + apply post_init_body_ok in Hb. tauto.
    + split; [done|]. intros [Hp _]. apply (post_init_body_ok name) in Hp.
      congruence.
Qed.

(** The loop raises what the first item that does not pass raises. *)
Lemma for_each_fields_raised (l : list (string * option string)) (e : exn) :
  for_each l post_init_body = Raised e ↔
  ∃ before name u after,
    l = (before ++ (name, Some u) :: after)%list
    ∧ Forall (λ item, field_passes item.2) before
    ∧ u ≠ ""
    ∧ _validate_proxy_url u name = Raised e.
Proof.
  induction l as [|[name f] l IH]; cbn [for_each].
  - split; [done|]. intros (before & ? & ? & ? & Heq & _).
    by destruct before.
  - destruct (post_init_body (name, f)) as [[]|e0] eqn:Hb; rstep.
    + apply post_init_body_ok in Hb. rewrite IH. split.
      * intros (before & n & u & after & -> & Hbefore & Hu & Hv).
        exists ((name, f) :: before), n, u, after.
        split; [done|]. split; [by constructor | done].
      * intros (before & n & u & after & Heq & Hbefore & Hu & Hv).
        destruct before as [|item before]; simpl in Heq.
        -- injection Heq as -> -> ->.
           specialize (Hb u eq_refl Hu). apply (validate_ok_iff u n) in Hb.
           congruence.
        -- injection Heq as <- ->. apply Forall_cons in Hbefore as [_ Hbefore].
           exists before, n, u, after. done.
    + apply post_init_body_raised in Hb as (u & -> & Hu & Hv). split.
      * intros [= <-]. exists [], name, u, l. done.
      * intros (before & n & u' & after & Heq & Hbefore & Hu' & Hv').
        destruct before as [|item before]; simpl in Heq.
        -- injection Heq as -> -> ->. congruence.
        -- injection Heq as <- ->. apply Forall_cons in Hbefore as [Hp _].
           specialize (Hp u eq_refl Hu). apply (validate_ok_iff u name) in Hp.
           congruence.
Qed.

Lemma nonempty_fields_valid_iff (tools llm all : option string) :
  nonempty_fields_valid tools llm all ↔
  field_passes tools ∧ field_passes llm ∧ field_passes all.
Proof.
  unfold nonempty_fields_valid, field_passes. simpl. split.
  - intros H. repeat split; intros u -> Hu; apply H; auto.
  - intros (Ht & Hl & Ha) u [Hu|[Hu|[Hu|[]]]] Hne; eauto.
Qed.

Lemma ProxyConfig_init_ok_iff (tools llm all : option string) (c : ProxyConfig) :
  ProxyConfig_init tools llm all = Ok c ↔
  c = {| tools_proxy := tools; llm_proxy := llm; all_proxy := all |}
  ∧ nonempty_fields_valid tools llm all.
Proof.
  unfold ProxyConfig_init, __post_init__. cbn [tools_proxy llm_proxy all_proxy].
  rewrite nonempty_fields_valid_iff.
  pose proof (for_each_fields_ok (named_fields tools llm all)) as Hok.
  unfold named_fields in Hok. rewrite !Forall_cons, Forall_nil in Hok.
  cbn [snd] in Hok.
  destruct (for_each _ post_init_body) as [[]|e]; rstep.
  - split; [intros [= <-]; split; [done | tauto] | intros [-> _]; done].
  - split; [done|]. intros [_ H].
    assert (Raised e = Ok ()) as [=] by (apply Hok; tauto).
Qed.

Lemma ProxyConfig_init_raised_iff (tools llm all : option string) (e : exn) :
  ProxyConfig_init tools llm all = Raised e ↔
  __post_init__ {| tools_proxy := tools; llm_proxy := llm; all_proxy := all |}
    = Raised e.
Proof.
  unfold ProxyConfig_init. cbv zeta.
  destruct (__post_init__ _) as [[]|e0]; rstep.
  - split; intros [=].
  - split; intros [= ->]; done.
Qed.

(** *** Resolution and adapters *)

Lemma effective_proxy_py_or (c : ProxyConfig) (k : TrafficClass) :
  effective_proxy c k = py_or (specific_proxy c k) (all_proxy c).
Proof. by destruct k. Qed.

Lemma selects_effective (c : ProxyConfig) (k : TrafficClass) (u : string) :
  selects c k u ↔ effective_proxy c k = Some u ∧ u ≠ "".
Proof.
  rewrite effective_proxy_py_or. unfold selects, py_or.
  destruct (truthy (specific_proxy c k)) eqn:Hs.
  - split.
    + intros (Hu & [H | [H _]]); [done | congruence].
    + intros [H Hu]. auto.
  - split.
    + intros (Hu & [H | [_ H]]); [|done].
      rewrite H in Hs. simpl in Hs. apply str_truthy_false in Hs. done.
    + intros [H Hu]. auto.
Qed.

(** Whatever a constructed configuration selects has been validated. *)
Lemma init_selects_valid (tools llm all : option string) (c : ProxyConfig)
      (k : TrafficClass) (u : string) :
  ProxyConfig_init tools llm all = Ok c → selects c k u → spec_valid_url u.
Proof.
  intros [-> Hv]%ProxyConfig_init_ok_iff (Hu & Hsel).
  apply Hv; [|done].
  destruct Hsel as [H | [_ H]]; [destruct k|]; cbn in H; rewrite <- H; cbn; auto.
Qed.

(** The URL both adapter methods start from. *)
Lemma resolved_class (c : ProxyConfig) (k : TrafficClass) :
  (if String.eqb (class_name k) "tools" then get_tools_proxy c else get_llm_proxy c)
  = effective_proxy c k.
Proof. by destruct k. Qed.

Lemma resolved_other (c : ProxyConfig) (proxy_type : string) :
  proxy_type ≠ "tools" →
  (if String.eqb proxy_type "tools" then get_tools_proxy c else get_llm_proxy c)
  = get_llm_proxy c.
Proof. intros H. apply String.eqb_neq in H. by rewrite H. Qed.

Lemma get_requests_proxies_class (c : ProxyConfig) (k : TrafficClass) :
  get_requests_proxies c (class_name k) =
  match effective_proxy c k with
  | Some u => if str_truthy u then Some [("http", u); ("https", u)] else None
  | None => None
  end.
Proof. unfold get_requests_proxies. by rewrite resolved_class. Qed.

Lemma get_httpx_proxies_class (c : ProxyConfig) (k : TrafficClass) :
  get_httpx_proxies c (class_name k) =
  match effective_proxy c k with
  | Some u =>
      if str_truthy u then
        parsed ← urlparse u; mret (Some (httpx_map (scheme parsed) u))
      else mret None
  | None => mret None
  end.
Proof.
  unfold get_httpx_proxies. rewrite resolved_class.
  destruct (effective_proxy c k) as [u|]; [|done].
  destruct (str_truthy u); [|done].
  destruct (urlparse u) as [p|e]; rstep; [|done].
  unfold httpx_map. by destruct (str_in (scheme p) _).
Qed.

Lemma get_httpx_proxies_selects (tools llm all : option string) (c : ProxyConfig)
      (k : TrafficClass) (u : string) :
  ProxyConfig_init tools llm all = Ok c → selects c k u →
  ∃ p, urlparse u = Ok p
       ∧ In (scheme p) supported_schemes
       ∧ get_httpx_proxies c (class_name k) = Ok (Some (httpx_map (scheme p) u)).
Proof.
  intros Hc Hsel.
  destruct (init_selects_valid _ _ _ _ _ _ Hc Hsel) as (p & Hp & Hs & _).
  apply selects_effective in Hsel as [He Hu%str_truthy_true].
  exists p. repeat split; [done..|].
  rewrite get_httpx_proxies_class, He, Hu, Hp. done.
Qed.

Lemma get_litellm_proxy_env_eq (c : ProxyConfig) :
  get_litellm_proxy_env c =
  match get_llm_proxy c with
  | Some u => if str_truthy u then [("HTTP_PROXY", u); ("HTTPS_PROXY", u)] else []
  | None => []
  end.
Proof.
  unfold get_litellm_proxy_env. destruct (get_llm_proxy c) as [u|]; [|done].
  by destruct (str_truthy u).
Qed.

(** *** Construction *)

(** C1 (as amended). Construction succeeds exactly when every field that
    is present and not the empty string parses with a supported scheme, a
    non-empty hostname and an explicit non-zero port; otherwise it raises
    and no object is produced. A constructed object holds the three
    arguments unchanged, and the URL it selects for a traffic class comes
    back unchanged from the resolution methods and inside every adapter
    output. *)
Theorem ProxyConfig_init_valid_roundtrip (tools llm all : option string) :
  ((∃ c, ProxyConfig_init tools llm all = Ok c)
     ↔ nonempty_fields_valid tools llm all)
  ∧ (¬ nonempty_fields_valid tools llm all
     → ∃ e, ProxyConfig_init tools llm all = Raised e)
  ∧ (∀ c, ProxyConfig_init tools llm all = Ok c →
       c = {| tools_proxy := tools; llm_proxy := llm; all_proxy := all |}
       ∧ ∀ k u, selects c k u →
           effective_proxy c k = Some u
           ∧ get_requests_proxies c (class_name k)
             = Some [("http", u); ("https", u)]
           ∧ (∃ p, urlparse u = Ok p
                   ∧ get_httpx_proxies c (class_name k)
                     = Ok (Some (httpx_map (scheme p) u)))
           ∧ (k = Llm →
              get_litellm_proxy_env c = [("HTTP_PROXY", u); ("HTTPS_PROXY", u)])).
Proof.
  split; [|split].
  - split.
    + intros [c Hc]. by apply ProxyConfig_init_ok_iff in Hc as [_ Hc].
    + intros Hv. eexists. by apply ProxyConfig_init_ok_iff.
  - intros Hn. destruct (ProxyConfig_init tools llm all) as [c|e] eqn:Hc; [|eauto].
    apply ProxyConfig_init_ok_iff in Hc as [_ Hc]. done.
  - intros c Hc. split; [by apply ProxyConfig_init_ok_iff in Hc as [-> _]|].
    intros k u Hsel.
    destruct (get_httpx_proxies_selects _ _ _ _ _ _ Hc Hsel) as (p & Hp & _ & Hx).
    apply selects_effective in Hsel as [He Hu%str_truthy_true].
    split; [done|]. split; [by rewrite get_requests_proxies_class, He, Hu|].
    split; [eauto|].
    intros ->. simpl in He. by rewrite get_litellm_proxy_env_eq, He, Hu.
Qed.


(** C3 (as amended). [get_tools_proxy] returns [tools_proxy] when that
    field is present and not the empty string, and otherwise returns
    [all_proxy] as it is; [get_llm_proxy] does the same with
    [llm_proxy]. This is the documented precedence once an empty
    class-specific field is read as absent. *)
Theorem effective_proxy_precedence (c : ProxyConfig) :
  get_tools_proxy c = spec_effective (blank_to_none (tools_proxy c)) (all_proxy c)
  ∧ get_llm_proxy c = spec_effective (blank_to_none (llm_proxy c)) (all_proxy c)
  ∧ (∀ u, tools_proxy c = Some u → u ≠ "" → get_tools_proxy c = Some u)
  ∧ (tools_proxy c = None ∨ tools_proxy c = Some "" → get_tools_proxy c = all_proxy c)
  ∧ (∀ u, llm_proxy c = Some u → u ≠ "" → get_llm_proxy c = Some u)
  ∧ (llm_proxy c = None ∨ llm_proxy c = Some "" → get_llm_proxy c = all_proxy c).
Proof.
  unfold get_tools_proxy, get_llm_proxy, py_or, blank_to_none.
  repeat split.
  - destruct (tools_proxy c) as [[|]|]; reflexivity.
  - destruct (llm_proxy c) as [[|]|]; reflexivity.
  - intros u -> Hu%str_truthy_true. simpl. by rewrite Hu.
  - intros [-> | ->]; reflexivity.
  - intros u -> Hu%str_truthy_true. simpl. by rewrite Hu.
  - intros [-> | ->]; reflexivity.
Qed.

(** *** Adapter outputs *)

(** C6. For a constructed configuration and a traffic class,
    [get_httpx_proxies] returns [None] when there is no effective proxy
    (the resolved value is [None] or empty). Otherwise the resolved URL
    parses, and the result is the one-key map [_socks_proxy] holding the
    URL when its scheme is [socks5] or [socks5h], and the map with keys
    [http://] and [https://], both holding the URL, for any other
    scheme. *)
Theorem get_httpx_proxies_shape (tools llm all : option string)
        (c : ProxyConfig) (k : TrafficClass) :
  ProxyConfig_init tools llm all = Ok c →
  (no_effective_proxy c k → get_httpx_proxies c (class_name k) = Ok None)
  ∧ (∀ u, effective_proxy c k = Some u → u ≠ "" →
       ∃ p, urlparse u = Ok p
            ∧ (scheme p = "socks5" ∨ scheme p = "socks5h" →
               get_httpx_proxies c (class_name k) = Ok (Some [("_socks_proxy", u)]))
            ∧ (¬ (scheme p = "socks5" ∨ scheme p = "socks5h") →
               get_httpx_proxies c (class_name k)
               = Ok (Some [("http://", u); ("https://", u)]))).
Proof.
  intros Hc. split.
  - intros Hno. rewrite get_httpx_proxies_class. by destruct Hno as [-> | ->].
  - intros u He Hu.
    assert (selects c k u) as Hsel by (by apply selects_effective).
    destruct (get_httpx_proxies_selects _ _ _ _ _ _ Hc Hsel) as (p & Hp & _ & Hx).
    exists p. split; [done|]. rewrite Hx. unfold httpx_map.
    destruct (str_in (scheme p) ["socks5"; "socks5h"]) eqn:Hs.
    + apply str_in_In in Hs. simpl in Hs. split; [done|].
      intros Hn. exfalso. apply Hn. destruct Hs as [<- | [<- | []]]; auto.
    + apply str_in_not_In in Hs. simpl in Hs. split; [|done].
      intros Hn. exfalso. apply Hs. destruct Hn as [-> | ->]; auto.
Qed.

(** C7. For a configuration and a traffic class, [get_requests_proxies]
    returns [None] when there is no effective proxy (the resolved value is
    [None] or empty), and otherwise the map with keys [http] and [https],
    both holding the resolved URL unchanged; the URL is never parsed, so
    its scheme plays no part. *)
Theorem get_requests_proxies_shape (c : ProxyConfig) (k : TrafficClass) :
  (no_effective_proxy c k → get_requests_proxies c (class_name k) = None)
  ∧ (∀ u, effective_proxy c k = Some u → u ≠ "" →
       get_requests_proxies c (class_name k) = Some [("http", u); ("https", u)]).
Proof.
  rewrite get_requests_proxies_class. split.
  - by intros [-> | ->].
  - intros u -> Hu%str_truthy_true. by rewrite Hu.
Qed.

(** C8. [get_litellm_proxy_env] returns the empty map when there is no
    effective LLM proxy (the resolved value is [None] or empty), and
    otherwise the map with exactly the entries [HTTP_PROXY] and
    [HTTPS_PROXY], both holding the resolved LLM proxy URL. *)
Theorem get_litellm_proxy_env_shape (c : ProxyConfig) :
  (no_effective_proxy c Llm → get_litellm_proxy_env c = [])
  ∧ (∀ u, get_llm_proxy c = Some u → u ≠ "" →
       get_litellm_proxy_env c = [("HTTP_PROXY", u); ("HTTPS_PROXY", u)]
       ∧ ∀ key, dict_get (get_litellm_proxy_env c) key
                = if bool_decide (key = "HTTP_PROXY" ∨ key = "HTTPS_PROXY")
                  then Some u else None).
Proof.
  rewrite get_litellm_proxy_env_eq. split.
  - unfold no_effective_proxy. simpl. by intros [-> | ->].
  - intros u -> Hu%str_truthy_true. rewrite Hu. split; [done|].
    intros key. cbn [dict_get].
    destruct (String.eqb_spec "HTTP_PROXY" key) as [<-|H1];
      [by rewrite bool_decide_eq_true_2 by auto|].
    destruct (String.eqb_spec "HTTPS_PROXY" key) as [<-|H2];
      [by rewrite bool_decide_eq_true_2 by auto|].
    rewrite bool_decide_eq_false_2; [done|]. intros [-> | ->]; done.
Qed.

(** *** The empty string and unknown traffic classes *)

Lemma match_resolved_blank {A} (specific all : option string)
      (f : string → A) (d : A) :
  match py_or specific all with
  | Some u => if str_truthy u then f u else d
  | None => d
  end
  = match py_or (blank_to_none specific) (blank_to_none all) with
    | Some u => if str_truthy u then f u else d
    | None => d
    end.
Proof. by destruct specific as [[|]|], all as [[|]|]. Qed.

(** C9 (as amended). A field given as the empty string is treated as
    absent by validation, by the precedence of the class-specific fields
    and by every adapter: validation skips it, so [__post_init__] and
    construction behave as if the field were [None] and construction
    succeeds when every field is empty; resolution falls through an empty
    class-specific field to [all_proxy]; and every adapter returns what it
    returns when the empty fields are replaced by [None]. The value the
    resolution methods return is the exception: they return what they
    return with the empty fields replaced by [None] unless the
    class-specific field is unset or empty and [all_proxy] is the empty
    string, and then they return the empty string, not [None]. *)
Theorem empty_string_as_absent :
  (∀ c, __post_init__ c = __post_init__ (normalise c))
  ∧ (∀ tools llm all,
       is_ok (ProxyConfig_init tools llm all)
       = is_ok (ProxyConfig_init (blank_to_none tools) (blank_to_none llm)
                                 (blank_to_none all)))
  ∧ ProxyConfig_init (Some "") (Some "") (Some "")
    = Ok {| tools_proxy := Some ""; llm_proxy := Some ""; all_proxy := Some "" |}
  ∧ (∀ llm u, get_tools_proxy
                {| tools_proxy := Some ""; llm_proxy := llm; all_proxy := u |} = u)
  ∧ (∀ tools u, get_llm_proxy
                  {| tools_proxy := tools; llm_proxy := Some ""; all_proxy := u |} = u)
  ∧ (∀ c proxy_type,
       get_requests_proxies c proxy_type
       = get_requests_proxies (normalise c) proxy_type
       ∧ get_httpx_proxies c proxy_type
         = get_httpx_proxies (normalise c) proxy_type)
  ∧ (∀ c, get_litellm_proxy_env c = get_litellm_proxy_env (normalise c))
  ∧ (∀ c k,
       truthy (effective_proxy c k) = truthy (effective_proxy (normalise c) k)
       ∧ (truthy (specific_proxy c k) = true ∨ all_proxy c ≠ Some "" →
          effective_proxy c k = effective_proxy (normalise c) k)
       ∧ (truthy (specific_proxy c k) = false → all_proxy c = Some "" →
          effective_proxy c k = Some ""
          ∧ effective_proxy (normalise c) k = None)).
Proof.
  assert (∀ c, __post_init__ c = __post_init__ (normalise c)) as Hpost.
  { intros [t l a]. unfold __post_init__, normalise, blank_to_none.
    cbn [tools_proxy llm_proxy all_proxy for_each].
    assert (∀ name f, post_init_body (name, f)
                      = post_init_body (name, if truthy f then f else None)) as Hb.
    { intros name [[|]|]; reflexivity. }
    by rewrite <- !Hb. }
  split; [done|]. split.
  { intros t l a. unfold ProxyConfig_init. cbv zeta.
    rewrite (Hpost {| tools_proxy := t; llm_proxy := l; all_proxy := a |}).
    unfold normalise. cbn [tools_proxy llm_proxy all_proxy].
    by destruct (__post_init__ _) as [[]|e]. }
  split; [reflexivity|]. split; [reflexivity|]. split; [reflexivity|].
  split; [|split].
  - intros [t l a] pt.
    unfold get_requests_proxies, get_httpx_proxies, get_tools_proxy,
      get_llm_proxy, normalise.
    cbn [tools_proxy llm_proxy all_proxy].
    destruct (String.eqb pt "tools"); split; apply match_resolved_blank.
  - intros [t l a].
    rewrite !get_litellm_proxy_env_eq. unfold get_llm_proxy, normalise.
    cbn [tools_proxy llm_proxy all_proxy]. apply match_resolved_blank.
  - intros c k. rewrite !effective_proxy_py_or.
    assert (specific_proxy (normalise c) k = blank_to_none (specific_proxy c k))
      as -> by (by destruct k).
    cbn [normalise all_proxy].
    destruct (specific_proxy c k) as [[|]|], (all_proxy c) as [[|]|];
      (split; [reflexivity|]); (split; [|intros; by try discriminate]);
      intros [H | H]; by try discriminate.
Qed.

(** C10. Any [proxy_type] other than exactly ["tools"] makes
    [get_requests_proxies] and [get_httpx_proxies] resolve the LLM proxy:
    each result is computed from [get_llm_proxy], and so is the result for
    ["llm"]. On a constructed configuration no [proxy_type] makes either
    method raise: [get_requests_proxies] has no raising path at all, and
    [get_httpx_proxies] only parses a URL that validation has parsed, so
    for a [proxy_type] other than ["tools"] it returns [None] when the LLM
    proxy resolves to nothing and the map for the LLM proxy URL
    otherwise. *)
Theorem proxy_type_default_llm :
  (∀ c proxy_type, proxy_type ≠ "tools" →
     get_requests_proxies c proxy_type = get_requests_proxies c "llm"
     ∧ get_httpx_proxies c proxy_type = get_httpx_proxies c "llm"
     ∧ get_requests_proxies c proxy_type
       = match get_llm_proxy c with
         | Some u => if str_truthy u then Some [("http", u); ("https", u)] else None
         | None => None
         end
     ∧ get_httpx_proxies c proxy_type
       = match get_llm_proxy c with
         | Some u =>
             if str_truthy u then
               match urlparse u with
               | Ok parsed =>
                   Ok (Some (if str_in (scheme parsed) ["socks5"; "socks5h"]
                             then [("_socks_proxy", u)]
                             else [("http://", u); ("https://", u)]))
               | Raised e => Raised e
               end
             else Ok None
         | None => Ok None
         end)
  ∧ (∀ tools llm all c proxy_type,
       ProxyConfig_init tools llm all = Ok c →
       (∃ r, get_httpx_proxies c proxy_type = Ok r)
       ∧ (proxy_type ≠ "tools" →
          (get_llm_proxy c = None ∨ get_llm_proxy c = Some "" →
           get_httpx_proxies c proxy_type = Ok None)
          ∧ (∀ u, get_llm_proxy c = Some u → u ≠ "" →
               ∃ p, urlparse u = Ok p
                    ∧ get_httpx_proxies c proxy_type
                      = Ok (Some (if str_in (scheme p) ["socks5"; "socks5h"]
                                  then [("_socks_proxy", u)]
                                  else [("http://", u); ("https://", u)]))))).
Proof.
  assert (∀ c pt, pt ≠ "tools" →
            get_httpx_proxies c pt
            = match get_llm_proxy c with
              | Some u =>
                  if str_truthy u then
                    match urlparse u with
                    | Ok parsed =>
                        Ok (Some (if str_in (scheme parsed) ["socks5"; "socks5h"]
                                  then [("_socks_proxy", u)]
                                  else [("http://", u); ("https://", u)]))
                    | Raised e => Raised e
                    end
                  else Ok None
              | None => Ok None
              end) as Hhttpx.
  { intros c pt Hpt. unfold get_httpx_proxies. rewrite (resolved_other c pt Hpt).
    destruct (get_llm_proxy c) as [u|]; [|done].
    destruct (str_truthy u); [|done].
    destruct (urlparse u) as [p|e]; rstep; [|done].
    by destruct (str_in (scheme p) _). }
  split.
  - intros c pt Hpt. split; [|split; [|split]].
    + unfold get_requests_proxies. by rewrite (resolved_other c pt Hpt).
    + unfold get_httpx_proxies. by rewrite (resolved_other c pt Hpt).
    + unfold get_requests_proxies. by rewrite (resolved_other c pt Hpt).
    + by apply Hhttpx.
  - intros t l a c pt Hc. split.
    + set (k := if String.eqb pt "tools" then Tools else Llm).
      assert (get_httpx_proxies c pt = get_httpx_proxies c (class_name k)) as ->.
      { unfold get_httpx_proxies, k. by destruct (String.eqb pt "tools"). }
      destruct (truthy (effective_proxy c k)) eqn:He.
      * apply truthy_true in He as (u & He & Hu).
        assert (selects c k u) as Hsel by (by apply selects_effective).
        destruct (get_httpx_proxies_selects _ _ _ _ _ _ Hc Hsel) as (p & _ & _ & Hx).
        eauto.
      * apply truthy_false in He. rewrite get_httpx_proxies_class.
        exists None. by destruct He as [-> | ->].
    + intros Hpt. rewrite (Hhttpx c pt Hpt). split.
      * by intros [-> | ->].
      * intros u Hu Hne.
        assert (selects c Llm u) as Hsel by (by apply selects_effective).
        destruct (init_selects_valid _ _ _ _ _ _ Hc Hsel) as (p & Hp & _).
        apply str_truthy_true in Hne. exists p. by rewrite Hu, Hne, Hp.
Qed.

(** *** The loader and the process-wide instance *)

Lemma for_items_setenv (d : dict) (w : World) :
  for_items d setenv w = (Ok tt, with_environ (write_items d (environ w)) w).
Proof.
  revert w. induction d as [|[key value] d IH]; intros w.
  - by destruct w.
  - cbn [for_items]. unfold mbind, Py_bind. cbn [setenv].
    rewrite IH. reflexivity.
Qed.

Lemma load_proxy_config_eq (w : World) :
  load_proxy_config w =
  match ProxyConfig_init (environ w !! "STRIX_PROXY_TOOLS")
                         (environ w !! "STRIX_PROXY_LLM")
                         (environ w !! "STRIX_PROXY_ALL") with
  | Ok c => (Ok {| oid := next_oid w; obj := c |}, after_alloc w)
  | Raised e => (Raised e, after_alloc w)
  end.
Proof.
  unfold load_proxy_config, new_ProxyConfig, mbind, Py_bind, getenv, fresh_oid, lift.
  by destruct (ProxyConfig_init _ _ _).
Qed.

Lemma configure_global_proxies_eq (w : World) :
  configure_global_proxies w =
  match ProxyConfig_init (environ w !! "STRIX_PROXY_TOOLS")
                         (environ w !! "STRIX_PROXY_LLM")
                         (environ w !! "STRIX_PROXY_ALL") with
  | Ok c =>
      (Ok {| oid := next_oid w; obj := c |},
       with_environ (write_items (get_litellm_proxy_env c) (environ w))
                    (after_alloc w))
  | Raised e => (Raised e, after_alloc w)
  end.
Proof.
  unfold configure_global_proxies, mbind at 1, Py_bind at 1.
  rewrite load_proxy_config_eq.
  destruct (ProxyConfig_init _ _ _) as [c|e]; [|done].
  unfold mbind, Py_bind. rewrite for_items_setenv. reflexivity.
Qed.

Lemma write_items_litellm (c : ProxyConfig) (E : gmap string string) :
  write_items (get_litellm_proxy_env c) E =
  match get_llm_proxy c with
  | Some u => if str_truthy u
              then <["HTTPS_PROXY" := u]> (<["HTTP_PROXY" := u]> E) else E
  | None => E
  end.
Proof.
  rewrite get_litellm_proxy_env_eq.
  destruct (get_llm_proxy c) as [u|]; [|done]. by destruct (str_truthy u).
Qed.

(** C4. [configure_global_proxies] builds the configuration from the
    environment variables [STRIX_PROXY_TOOLS], [STRIX_PROXY_LLM] and
    [STRIX_PROXY_ALL]. When that succeeds it assigns the entries of
    [get_litellm_proxy_env] to the environment, replacing earlier values
    of [HTTP_PROXY] and [HTTPS_PROXY], leaves every other variable and
    the module global as they were, and returns the loaded object. When
    construction raises, the exception propagates and the environment is
    unchanged. *)
Theorem configure_global_proxies_effect (w : World) :
  match ProxyConfig_init (environ w !! "STRIX_PROXY_TOOLS")
                         (environ w !! "STRIX_PROXY_LLM")
                         (environ w !! "STRIX_PROXY_ALL") with
  | Ok c =>
      ∃ config w',
        load_proxy_config w = (Ok config, after_alloc w)
        ∧ obj config = c
        ∧ configure_global_proxies w = (Ok config, w')
        ∧ environ w' = write_items (get_litellm_proxy_env c) (environ w)
        ∧ (∀ u, get_llm_proxy c = Some u → u ≠ "" →
             environ w' !! "HTTP_PROXY" = Some u
             ∧ environ w' !! "HTTPS_PROXY" = Some u)
        ∧ (∀ key, key ≠ "HTTP_PROXY" → key ≠ "HTTPS_PROXY" →
             environ w' !! key = environ w !! key)
        ∧ _global_proxy_config w' = _global_proxy_config w
  | Raised e =>
      ∃ w', configure_global_proxies w = (Raised e, w')
            ∧ environ w' = environ w
            ∧ _global_proxy_config w' = _global_proxy_config w
  end.
Proof.
  pose proof (configure_global_proxies_eq w) as Hcfg.
  pose proof (load_proxy_config_eq w) as Hload.
  destruct (ProxyConfig_init _ _ _) as [c|e]; [|by eexists].
  eexists _, _. split; [done|]. split; [done|]. split; [done|].
  cbn [environ with_environ _global_proxy_config after_alloc].
  split; [done|]. rewrite write_items_litellm. split; [|split; [|done]].
  - intros u -> Hu%str_truthy_true. rewrite Hu. split.
    + by rewrite lookup_insert_ne, lookup_insert_eq.
    + by rewrite lookup_insert_eq.
  - intros key H1 H2. destruct (get_llm_proxy c) as [u|]; [|done].
    destruct (str_truthy u); [|done].
    by rewrite !lookup_insert_ne.
Qed.

Lemma get_proxy_config_eq (w : World) :
  get_proxy_config w =
  match _global_proxy_config w with
  | None =>
      match configure_global_proxies w with
      | (Ok config, w') => (Ok (Some config), with_global (Some config) w')
      | (Raised e, w') => (Raised e, w')
      end
  | Some config => (Ok (Some config), w)
  end.
Proof.
  unfold get_proxy_config, mbind at 1, Py_bind at 1. cbn [read_global].
  destruct (_global_proxy_config w) as [config|] eqn:Hg.
  - unfold mbind, Py_bind, mret, Py_ret, read_global. by rewrite Hg.
  - unfold mbind at 1, Py_bind at 1. unfold mbind at 1, Py_bind at 1.
    by destruct (configure_global_proxies w) as [[config|e] w'].
Qed.

(** C5. A call of [get_proxy_config] that returns yields the object held
    in the module global afterwards. If the global was unset, that object
    is the one [configure_global_proxies] returned in this call. Every
    later call, whatever the environment has been changed to in between,
    returns the same object (same identity, same fields) and changes
    nothing: the environment is not read, not written, and no object is
    created. *)
Theorem get_proxy_config_cached (w w1 : World) (r : option Instance) :
  get_proxy_config w = (Ok r, w1) →
  ∃ config,
    r = Some config
    ∧ _global_proxy_config w1 = Some config
    ∧ (_global_proxy_config w = None →
       ∃ w', configure_global_proxies w = (Ok config, w')
             ∧ w1 = with_global (Some config) w')
    ∧ (∀ E, get_proxy_config (with_environ E w1)
            = (Ok (Some config), with_environ E w1)).
Proof.
  rewrite get_proxy_config_eq.
  destruct (_global_proxy_config w) as [config|] eqn:Hg.
  - intros [= <- <-]. exists config. split; [done|]. split; [done|].
    split; [done|]. intros E. rewrite get_proxy_config_eq.
    cbn [with_environ _global_proxy_config]. by rewrite Hg.
  - destruct (configure_global_proxies w) as [[config|e] w'] eqn:Hcfg; [|done].
    intros [= <- <-]. exists config. split; [done|]. split; [done|].
    split; [eauto|]. intros E. by rewrite get_proxy_config_eq.
Qed.

(** *** Further properties of the loader and the process-wide instance *)

Lemma write_items_litellm_idem (c : ProxyConfig) (E : gmap string string) :
  write_items (get_litellm_proxy_env c) (write_items (get_litellm_proxy_env c) E)
  = write_items (get_litellm_proxy_env c) E.
Proof.
  rewrite !write_items_litellm.
  destruct (get_llm_proxy c) as [u|]; [|done]. destruct (str_truthy u); [|done].
  apply map_eq. intros key. rewrite !lookup_insert. by repeat case_decide.
Qed.

Lemma write_items_litellm_frame (c : ProxyConfig) (E : gmap string string)
      (key : string) :
  key ≠ "HTTP_PROXY" → key ≠ "HTTPS_PROXY" →
  write_items (get_litellm_proxy_env c) E !! key = E !! key.
Proof.
  intros H1 H2. rewrite write_items_litellm.
  destruct (get_llm_proxy c) as [u|]; [|done]. destruct (str_truthy u); [|done].
  by rewrite !lookup_insert_ne.
Qed.

Lemma write_items_litellm_keeps (c : ProxyConfig) (E : gmap string string)
      (key : string) :
  is_Some (E !! key) → is_Some (write_items (get_litellm_proxy_env c) E !! key).
Proof.
  intros HE. rewrite write_items_litellm.
  destruct (get_llm_proxy c) as [u|]; [|done]. destruct (str_truthy u); [|done].
  rewrite !lookup_insert. by repeat case_decide.
Qed.

Lemma proxy_variable_not_written (key : string) :
  In key proxy_variables → key ≠ "HTTP_PROXY" ∧ key ≠ "HTTPS_PROXY".
Proof. intros [<- | [<- | [<- | []]]]; by split. Qed.

(** The first call of [get_proxy_config], step by step. *)
Lemma get_proxy_config_first (w : World) :
  _global_proxy_config w = None →
  get_proxy_config w =
  match ProxyConfig_init (environ w !! "STRIX_PROXY_TOOLS")
                         (environ w !! "STRIX_PROXY_LLM")
                         (environ w !! "STRIX_PROXY_ALL") with
  | Ok c =>
      let config := {| oid := next_oid w; obj := c |} in
      (Ok (Some config),
       with_global (Some config)
         (with_environ (write_items (get_litellm_proxy_env c) (environ w))
                       (after_alloc w)))
  | Raised e => (Raised e, after_alloc w)
  end.
Proof.
  intros Hg. rewrite get_proxy_config_eq, Hg, configure_global_proxies_eq.
  by destruct (ProxyConfig_init _ _ _).
Qed.

(** X1. A call of [get_proxy_config] that raises caches nothing: the
    exception is the one construction raised for the three variables, the
    module global is still unset and the environment is as it was. The
    next call therefore reads the environment again: once the variables
    hold a configuration that constructs, it succeeds, exports the LLM
    proxy and caches the new object. *)
Theorem get_proxy_config_failure_not_cached (w w1 : World) (e : exn) :
  get_proxy_config w = (Raised e, w1) →
  _global_proxy_config w = None
  ∧ ProxyConfig_init (environ w !! "STRIX_PROXY_TOOLS")
                     (environ w !! "STRIX_PROXY_LLM")
                     (environ w !! "STRIX_PROXY_ALL") = Raised e
  ∧ _global_proxy_config w1 = None
  ∧ environ w1 = environ w
  ∧ ∀ E c,
      ProxyConfig_init (E !! "STRIX_PROXY_TOOLS") (E !! "STRIX_PROXY_LLM")
                       (E !! "STRIX_PROXY_ALL") = Ok c →
      ∃ config w2,
        get_proxy_config (with_environ E w1) = (Ok (Some config), w2)
        ∧ obj config = c
        ∧ _global_proxy_config w2 = Some config
        ∧ environ w2 = write_items (get_litellm_proxy_env c) E.
Proof.
  intros Hrun.
  destruct (_global_proxy_config w) as [config|] eqn:Hg.
  { rewrite get_proxy_config_eq, Hg in Hrun. done. }
  rewrite (get_proxy_config_first w Hg) in Hrun.
  destruct (ProxyConfig_init _ _ _) as [c|e0] eqn:Hc; [done|].
  injection Hrun as <- <-.
  split; [done|]. split; [done|]. split; [done|]. split; [done|].
  intros E c HE.
  rewrite get_proxy_config_first by done.
  cbn [environ with_environ]. rewrite HE.
  eexists _, _. split; [reflexivity|]. done.
Qed.

(** X2. [configure_global_proxies] may be repeated. A second call right
    after a successful one succeeds too, builds a new object (another
    identity) with the same three fields, and leaves the environment the
    first call produced as it is. *)
Theorem configure_global_proxies_twice (w w1 : World) (config : Instance) :
  configure_global_proxies w = (Ok config, w1) →
  ∃ config2 w2,
    configure_global_proxies w1 = (Ok config2, w2)
    ∧ obj config2 = obj config
    ∧ oid config2 ≠ oid config
    ∧ environ w2 = environ w1.
Proof.
  rewrite configure_global_proxies_eq.
  destruct (ProxyConfig_init _ _ _) as [c|e] eqn:Hc; [|done].
  intros [= <- <-]. rewrite configure_global_proxies_eq.
  cbn [environ with_environ after_alloc next_oid].
  rewrite !write_items_litellm_frame by done. rewrite Hc.
  eexists _, _. split; [reflexivity|].
  cbn [obj oid environ with_environ]. split; [done|]. split; [lia|].
  apply write_items_litellm_idem.
Qed.

(** X3. [configure_global_proxies] never unsets a variable and never
    changes one of the three variables it reads. When neither
    [STRIX_PROXY_LLM] nor [STRIX_PROXY_ALL] holds a non-empty value it
    leaves the whole environment as it was, whatever [STRIX_PROXY_TOOLS]
    holds and whether or not construction succeeds: an [HTTP_PROXY] or
    [HTTPS_PROXY] found there stays in force. *)
Theorem configure_global_proxies_preserves (w w1 : World) (r : Result Instance) :
  configure_global_proxies w = (r, w1) →
  (∀ key, is_Some (environ w !! key) → is_Some (environ w1 !! key))
  ∧ (∀ key, In key proxy_variables → environ w1 !! key = environ w !! key)
  ∧ (truthy (environ w !! "STRIX_PROXY_LLM") = false →
     truthy (environ w !! "STRIX_PROXY_ALL") = false →
     environ w1 = environ w).
Proof.
  rewrite configure_global_proxies_eq.
  destruct (ProxyConfig_init _ _ _) as [c|e] eqn:Hc; intros [= <- <-];
    cbn [environ with_environ after_alloc]; [|done].
  split; [intros key; apply write_items_litellm_keeps|]. split.
  - intros key [H1 H2]%proxy_variable_not_written.
    by apply write_items_litellm_frame.
  - intros Hl Ha. apply ProxyConfig_init_ok_iff in Hc as [-> _].
    rewrite write_items_litellm. unfold get_llm_proxy, py_or.
    cbn [llm_proxy all_proxy]. rewrite Hl.
    destruct (environ w !! "STRIX_PROXY_ALL") as [u|]; [|done].
    simpl in Ha. by rewrite Ha.
Qed.

(** *** Further properties of construction and the adapters *)

(** Every [proxy_type] behaves as one of the two classes. *)
Lemma proxy_type_as_class (proxy_type : string) :
  ∃ k, ∀ c,
    get_requests_proxies c proxy_type = get_requests_proxies c (class_name k)
    ∧ get_httpx_proxies c proxy_type = get_httpx_proxies c (class_name k).
Proof.
  exists (if String.eqb proxy_type "tools" then Tools else Llm). intros c.
  unfold get_requests_proxies, get_httpx_proxies.
  by destruct (String.eqb proxy_type "tools").
Qed.

Lemma init_effective_valid (tools llm all : option string) (c : ProxyConfig)
      (k : TrafficClass) (u : string) :
  ProxyConfig_init tools llm all = Ok c →
  effective_proxy c k = Some u → u ≠ "" → spec_valid_url u.
Proof.
  intros Hc He Hu. apply (init_selects_valid _ _ _ _ k u Hc).
  by apply selects_effective.
Qed.

Lemma supported_not_socks (sch : string) :
  In sch supported_schemes → str_in sch ["socks5"; "socks5h"] = false →
  sch = "http" ∨ sch = "https".
Proof.
  intros Hs Hn. apply str_in_not_In in Hn. simpl in Hs, Hn.
  destruct Hs as [<- | [<- | [<- | [<- | []]]]]; auto; exfalso; auto.
Qed.

(** X4. The adapters of a constructed configuration only hand out URLs
    that have passed validation: every value of a [get_requests_proxies]
    or [get_httpx_proxies] result and of [get_litellm_proxy_env] is a valid
    proxy URL. In a [get_httpx_proxies] result the key tells the scheme:
    [_socks_proxy] holds a [socks5] or [socks5h] URL, and [http://] and
    [https://] hold an [http] or [https] URL. *)
Theorem adapters_emit_validated (tools llm all : option string)
        (c : ProxyConfig) (proxy_type : string) :
  ProxyConfig_init tools llm all = Ok c →
  (∀ d key v, get_requests_proxies c proxy_type = Some d →
              In (key, v) d → spec_valid_url v)
  ∧ (∀ d key v, get_httpx_proxies c proxy_type = Ok (Some d) →
                In (key, v) d →
                spec_valid_url v
                ∧ ∃ p, urlparse v = Ok p
                       ∧ ((key = "_socks_proxy"
                           ∧ (scheme p = "socks5" ∨ scheme p = "socks5h"))
                          ∨ ((key = "http://" ∨ key = "https://")
                             ∧ (scheme p = "http" ∨ scheme p = "https"))))
  ∧ (∀ key v, In (key, v) (get_litellm_proxy_env c) → spec_valid_url v).
Proof.
  intros Hc. destruct (proxy_type_as_class proxy_type) as [k Hk].
  destruct (Hk c) as [-> ->]. clear Hk.
  rewrite get_requests_proxies_class, get_httpx_proxies_class,
    get_litellm_proxy_env_eq.
  pose proof (λ u, init_effective_valid tools llm all c k u Hc) as Hvalid.
  pose proof (λ u, init_effective_valid tools llm all c Llm u Hc) as Hllm.
  simpl in Hllm.
  split; [|split].
  - destruct (effective_proxy c k) as [u|]; [|done].
    destruct (str_truthy u) eqn:Hu; [|done]. apply str_truthy_true in Hu.
    intros d key v [= <-] [[= _ <-] | [[= _ <-] | []]]; by apply Hvalid.
  - destruct (effective_proxy c k) as [u|]; [|done].
    destruct (str_truthy u) eqn:Hu; [|done]. apply str_truthy_true in Hu.
    pose proof (Hvalid u eq_refl Hu) as Hv.
    destruct Hv as (p & Hp & Hs & Hrest). rewrite Hp. rstep.
    intros d key v [= <-] Hin. unfold httpx_map in Hin.
    destruct (str_in (scheme p) ["socks5"; "socks5h"]) eqn:Hsocks.
    + destruct Hin as [[= <- <-] | []].
      split; [by exists p|]. exists p. split; [done|]. left. split; [done|].
      apply str_in_In in Hsocks. simpl in Hsocks.
      destruct Hsocks as [<- | [<- | []]]; auto.
    + pose proof (supported_not_socks _ Hs Hsocks) as Hhttp.
      destruct Hin as [[= <- <-] | [[= <- <-] | []]];
        (split; [by exists p|]); exists p; split; auto.
  - destruct (get_llm_proxy c) as [u|]; [|done].
    destruct (str_truthy u) eqn:Hu; [|done]. apply str_truthy_true in Hu.
    intros key v [[= _ <-] | [[= _ <-] | []]]; by apply Hllm.
Qed.

(** X5. The adapters of a constructed configuration agree on whether a
    proxy is configured: for every [proxy_type], [get_requests_proxies]
    returns [None] exactly when [get_httpx_proxies] does, and when it
    returns a map, [get_httpx_proxies] returns a map holding the same URL;
    and [get_litellm_proxy_env] is empty exactly when
    [get_requests_proxies] has nothing for the LLM class. *)
Theorem adapters_agree (tools llm all : option string)
        (c : ProxyConfig) (proxy_type : string) :
  ProxyConfig_init tools llm all = Ok c →
  (get_requests_proxies c proxy_type = None
     ↔ get_httpx_proxies c proxy_type = Ok None)
  ∧ (∀ d, get_requests_proxies c proxy_type = Some d →
       ∃ d', get_httpx_proxies c proxy_type = Ok (Some d')
             ∧ d' ≠ []
             ∧ ∀ key v, In (key, v) d' → In ("http", v) d ∧ In ("https", v) d)
  ∧ (get_requests_proxies c "llm" = None ↔ get_litellm_proxy_env c = []).
Proof.
  intros Hc. destruct (proxy_type_as_class proxy_type) as [k Hk].
  destruct (Hk c) as [-> ->]. clear Hk.
  pose proof (get_requests_proxies_class c Llm) as Hllm.
  cbn [class_name effective_proxy] in Hllm. rewrite Hllm. clear Hllm.
  rewrite !get_requests_proxies_class, get_httpx_proxies_class,
    get_litellm_proxy_env_eq.
  pose proof (λ u, init_effective_valid tools llm all c k u Hc) as Hvalid.
  cbn [effective_proxy].
  split; [|split].
  - destruct (effective_proxy c k) as [u|]; [|done].
    destruct (str_truthy u) eqn:Hu; [|done]. apply str_truthy_true in Hu.
    destruct (Hvalid u eq_refl Hu) as (p & -> & _). by rstep.
  - destruct (effective_proxy c k) as [u|]; [|done].
    destruct (str_truthy u) eqn:Hu; [|done]. apply str_truthy_true in Hu.
    destruct (Hvalid u eq_refl Hu) as (p & -> & _). rstep.
    intros d [= <-]. eexists. split; [reflexivity|]. unfold httpx_map.
    destruct (str_in (scheme p) _); (split; [done|]);
      intros key v Hin; simpl in Hin;
      repeat match type of Hin with
             | _ ∨ _ => destruct Hin as [[= _ <-] | Hin]; [split; simpl; auto|]
             end;
      destruct Hin.
  - destruct (get_llm_proxy c) as [u|]; [|done]. by destruct (str_truthy u).
Qed.

(** X6. [get_httpx_proxies] and [get_requests_proxies] do not validate:
    they work on whatever the fields hold when they are called. For a
    configuration that resolves to a non-empty URL, whether or not that URL
    ever passed validation (the fields of the dataclass can be assigned
    after construction), [get_requests_proxies] returns the map without
    parsing; [get_httpx_proxies] raises what the parser raises, unwrapped,
    and for a URL that parses it looks at the scheme only: any scheme other
    than [socks5] and [socks5h], supported or not, gives the [http://] and
    [https://] map, and hostname and port are not looked at. *)
Theorem adapters_do_not_validate (c : ProxyConfig) (k : TrafficClass) (u : string) :
  effective_proxy c k = Some u → u ≠ "" →
  get_requests_proxies c (class_name k) = Some [("http", u); ("https", u)]
  ∧ (∀ e, urlparse u = Raised e →
          get_httpx_proxies c (class_name k) = Raised e)
  ∧ (∀ p, urlparse u = Ok p →
          scheme p ≠ "socks5" → scheme p ≠ "socks5h" →
          get_httpx_proxies c (class_name k)
          = Ok (Some [("http://", u); ("https://", u)])).
Proof.
  intros He Hu%str_truthy_true.
  rewrite get_requests_proxies_class, get_httpx_proxies_class, He, Hu.
  split; [done|]. split.
  - by intros e ->.
  - intros p -> H1 H2. rstep. unfold httpx_map.
    destruct (str_in (scheme p) ["socks5"; "socks5h"]) eqn:Hs; [|done].
    apply str_in_In in Hs. simpl in Hs. destruct Hs as [Hs | [Hs | []]]; congruence.
Qed.

(** X7. A port of 0 counts as no port. Construction with a first field
    whose URL parses with a supported scheme and a hostname, and whose
    port is 0 or not given, raises the same error in both cases: the
    [ValueError] for [STRIX_PROXY_TOOLS] whose cause is the "Missing port"
    [ValueError]. *)
Theorem port_zero_is_missing (u : string) (p : ParseResult) (llm all : option string) :
  u ≠ "" →
  urlparse u = Ok p →
  In (scheme p) supported_schemes →
  truthy (hostname p) = true →
  port p = Ok (Some 0%Z) ∨ port p = Ok None →
  ProxyConfig_init (Some u) llm all
  = Raised (ValueError
      ("Invalid proxy URL in " +:+ "STRIX_PROXY_TOOLS" +:+ ": " +:+ u)
      (Some (ValueError
         ("Missing port in " +:+ "STRIX_PROXY_TOOLS" +:+ ": " +:+ u) None))).
Proof.
  intros Hu Hp Hs Hh Hport.
  apply ProxyConfig_init_raised_iff. unfold __post_init__.
  cbn [tools_proxy llm_proxy all_proxy].
  apply for_each_fields_raised. eexists [], "STRIX_PROXY_TOOLS", u, _.
  split; [reflexivity|]. split; [constructor|]. split; [done|].
  apply validate_raised_iff. eexists. split; [|reflexivity].
  destruct Hport as [Hport | Hport]; by eapply handled_port.
Qed.

(** X8. Validation stops at the first field that fails. When the tools
    URL is set and invalid, the exception construction raises does not
    depend on the other two fields; when the tools field passes and the LLM
    URL is set and invalid, it does not depend on the catch-all field. The
    later fields are not even parsed. *)
Theorem later_fields_not_examined :
  (∀ u llm all e,
     u ≠ "" → ¬ spec_valid_url u →
     ProxyConfig_init (Some u) llm all = Raised e →
     ∀ llm' all', ProxyConfig_init (Some u) llm' all' = Raised e)
  ∧ (∀ tools u all e,
       field_passes tools → u ≠ "" → ¬ spec_valid_url u →
       ProxyConfig_init tools (Some u) all = Raised e →
       ∀ all', ProxyConfig_init tools (Some u) all' = Raised e).
Proof.
  split.
  - intros u llm all e Hu Hinvalid Hraise llm' all'.
    apply ProxyConfig_init_raised_iff in Hraise.
    apply ProxyConfig_init_raised_iff.
    unfold __post_init__ in *. cbn [tools_proxy llm_proxy all_proxy] in *.
    apply for_each_fields_raised in Hraise
      as (before & name & u' & after & Heq & Hbefore & Hu' & Hv).
    destruct before as [|item before]; simpl in Heq; simplify_eq.
    + apply for_each_fields_raised. eexists [], _, _, _.
      split; [reflexivity|]. split; [constructor|]. done.
    + apply Forall_cons in Hbefore as [Hpass _].
      exfalso. apply Hinvalid. by apply Hpass.
  - intros tools u all e Htools Hu Hinvalid Hraise all'.
    apply ProxyConfig_init_raised_iff in Hraise.
    apply ProxyConfig_init_raised_iff.
    unfold __post_init__ in *. cbn [tools_proxy llm_proxy all_proxy] in *.
    apply for_each_fields_raised in Hraise
      as (before & name & u' & after & Heq & Hbefore & Hu' & Hv).
    destruct before as [|item1 [|item2 before]]; simpl in Heq; simplify_eq.
    + exfalso. specialize (Htools u' eq_refl Hu').
      apply (validate_ok_iff u' "STRIX_PROXY_TOOLS") in Htools. congruence.
    + apply for_each_fields_raised.
      eexists [("STRIX_PROXY_TOOLS", tools)], _, _, _.
      split; [reflexivity|]. split; [|done].
      constructor; [done | constructor].
    + apply Forall_cons in Hbefore as [_ Hbefore].
      apply Forall_cons in Hbefore as [Hpass _].
      exfalso. apply Hinvalid. by apply Hpass.
Qed.

(** *** Further properties of the first call *)

Lemma falsy_fields_construct (tools llm all : option string) :
  truthy tools = false → truthy llm = false → truthy all = false →
  ProxyConfig_init tools llm all
  = Ok {| tools_proxy := tools; llm_proxy := llm; all_proxy := all |}.
Proof.
  intros Ht Hl Ha. apply ProxyConfig_init_ok_iff. split; [done|].
  intros u Hin Hu. exfalso.
  assert (truthy (Some u) = true) as Htrue by (apply truthy_true; eauto).
  simpl in Hin. destruct Hin as [H | [H | [H | []]]]; congruence.
Qed.

(** X9. With none of the three variables set to a non-empty value (unset
    or empty, whatever else the environment holds), the first call of
    [get_proxy_config] succeeds with any parser, since nothing is parsed.
    It leaves the environment as it was, and the object it returns
    resolves no proxy: [get_requests_proxies] and [get_httpx_proxies]
    return [None] for every [proxy_type] and [get_litellm_proxy_env] is
    empty. *)
Theorem unset_environment_no_proxy (w : World) :
  _global_proxy_config w = None →
  truthy (environ w !! "STRIX_PROXY_TOOLS") = false →
  truthy (environ w !! "STRIX_PROXY_LLM") = false →
  truthy (environ w !! "STRIX_PROXY_ALL") = false →
  ∃ config w1,
    get_proxy_config w = (Ok (Some config), w1)
    ∧ environ w1 = environ w
    ∧ truthy (get_tools_proxy (obj config)) = false
    ∧ truthy (get_llm_proxy (obj config)) = false
    ∧ (∀ proxy_type,
         get_requests_proxies (obj config) proxy_type = None
         ∧ get_httpx_proxies (obj config) proxy_type = Ok None)
    ∧ get_litellm_proxy_env (obj config) = [].
Proof.
  intros Hg Ht Hl Ha. rewrite (get_proxy_config_first w Hg).
  rewrite (falsy_fields_construct _ _ _ Ht Hl Ha). cbv zeta.
  eexists _, _. split; [reflexivity|].
  cbn [environ with_global with_environ obj].
  set (c := {| tools_proxy := _; llm_proxy := _; all_proxy := _ |}).
  assert (truthy (get_tools_proxy c) = false) as Htools.
  { unfold get_tools_proxy, py_or, c. cbn [tools_proxy all_proxy]. by rewrite Ht. }
  assert (truthy (get_llm_proxy c) = false) as Hllm.
  { unfold get_llm_proxy, py_or, c. cbn [llm_proxy all_proxy]. by rewrite Hl. }
  split.
  { rewrite write_items_litellm.
    destruct (get_llm_proxy c) as [u|]; [|done]. simpl in Hllm. by rewrite Hllm. }
  split; [done|]. split; [done|]. split.
  - intros pt. unfold get_requests_proxies, get_httpx_proxies.
    destruct (String.eqb pt "tools").
    + destruct (get_tools_proxy c) as [u|]; [|done]. simpl in Htools.
      by rewrite Htools.
    + destruct (get_llm_proxy c) as [u|]; [|done]. simpl in Hllm.
      by rewrite Hllm.
  - rewrite get_litellm_proxy_env_eq.
    destruct (get_llm_proxy c) as [u|]; [|done]. simpl in Hllm. by rewrite Hllm.
Qed.

(** X10. [load_proxy_config] and [configure_global_proxies] read the three
    variables [STRIX_PROXY_TOOLS], [STRIX_PROXY_LLM] and [STRIX_PROXY_ALL]
    and nothing else: in two environments that agree on these three they
    return the same result, the same object or the same exception,
    whatever any other variable holds. *)
Theorem load_reads_three_variables (w : World) (E : gmap string string) :
  (∀ key, In key proxy_variables → E !! key = environ w !! key) →
  (load_proxy_config (with_environ E w)).1 = (load_proxy_config w).1
  ∧ (configure_global_proxies (with_environ E w)).1
    = (configure_global_proxies w).1.
Proof.
  intros Hsame. rewrite !load_proxy_config_eq, !configure_global_proxies_eq.
  cbn [environ with_environ next_oid].
  rewrite !Hsame by (simpl; auto).
  by destruct (ProxyConfig_init _ _ _).
Qed.

(** X11. The first successful call of [get_proxy_config] takes a snapshot:
    the fields of the object it returns are the values the three variables
    had at the call, exactly one object has been created, the LLM proxy the
    object resolves, if any, is what [HTTP_PROXY] and [HTTPS_PROXY] hold
    afterwards, and every other variable is as before. *)
Theorem get_proxy_config_first_call (w w1 : World) (config : Instance) :
  _global_proxy_config w = None →
  get_proxy_config w = (Ok (Some config), w1) →
  obj config = {| tools_proxy := environ w !! "STRIX_PROXY_TOOLS";
                  llm_proxy := environ w !! "STRIX_PROXY_LLM";
                  all_proxy := environ w !! "STRIX_PROXY_ALL" |}
  ∧ oid config = next_oid w
  ∧ next_oid w1 = S (next_oid w)
  ∧ (∀ u, get_llm_proxy (obj config) = Some u → u ≠ "" →
          environ w1 !! "HTTP_PROXY" = Some u
          ∧ environ w1 !! "HTTPS_PROXY" = Some u)
  ∧ (∀ key, key ≠ "HTTP_PROXY" → key ≠ "HTTPS_PROXY" →
            environ w1 !! key = environ w !! key).
Proof.
  intros Hg. rewrite (get_proxy_config_first w Hg).
  destruct (ProxyConfig_init _ _ _) as [c|e] eqn:Hc; [|done].
  cbv zeta. intros [= <- <-].
  cbn [obj oid environ next_oid with_global with_environ after_alloc].
  apply ProxyConfig_init_ok_iff in Hc as [Hc _].
  split; [done|]. split; [done|]. split; [done|]. split.
  - intros u Hu Hne%str_truthy_true. rewrite write_items_litellm, Hu, Hne.
    split; [by rewrite lookup_insert_ne, lookup_insert_eq | by rewrite lookup_insert_eq].
  - intros key H1 H2. by apply write_items_litellm_frame.
Qed.

End Proxy.

(** ** Concrete runs with the parser instance *)

(** C1, as stated, fails: a field holding the empty string is present and
    does not parse as a URL with a supported scheme, yet construction
    succeeds. *)
Lemma empty_field_skips_validation :
  (∃ c, ProxyConfig_init UrlLib.urlparse_model (Some "") None None = Ok c)
  ∧ ¬ spec_valid_url UrlLib.urlparse_model ""
  ∧ ¬ spec_present_fields_valid UrlLib.urlparse_model (Some "") None None.
Proof.
  assert (¬ spec_valid_url UrlLib.urlparse_model "") as Hempty.
  { intros H%(validate_ok_iff UrlLib.urlparse_model "" "STRIX_PROXY_TOOLS").
    vm_compute in H. discriminate H. }
  split; [eexists; reflexivity|]. split; [done|].
  intros Hv. apply Hempty, Hv. by left.
Qed.

(** A run of C1: a tools URL, an empty LLM field and a SOCKS catch-all. *)
Lemma ProxyConfig_init_valid_roundtrip_witness :
  ∃ c, ProxyConfig_init UrlLib.urlparse_model
         (Some "http://a:1") (Some "") (Some "socks5://b:2") = Ok c
       ∧ effective_proxy c Tools = Some "http://a:1"
       ∧ effective_proxy c Llm = Some "socks5://b:2"
       ∧ get_requests_proxies c "llm"
         = Some [("http", "socks5://b:2"); ("https", "socks5://b:2")].
Proof.
  pose proof (ProxyConfig_init_valid_roundtrip UrlLib.urlparse_model
                (Some "http://a:1") (Some "") (Some "socks5://b:2"))
    as (Hiff & _ & Hround).
  destruct (proj2 Hiff) as [c Hc].
  { intros u [[= <-] | [[= <-] | [[= <-] | []]]] Hu; [|done|].
    - apply (validate_ok_iff UrlLib.urlparse_model _ "STRIX_PROXY_TOOLS"). reflexivity.
    - apply (validate_ok_iff UrlLib.urlparse_model _ "STRIX_PROXY_ALL"). reflexivity. }
  exists c. split; [done|].
  destruct (Hround c Hc) as [-> Hsel].
  destruct (Hsel Tools "http://a:1") as (Het & _); [split; [done | by left]|].
  destruct (Hsel Llm "socks5://b:2") as (Hel & Hreq & _);
    [split; [done | right; split; reflexivity]|].
  done.
Defined.



(** C3, as stated, fails. Reading "present" as "not [None]": with
    [tools_proxy] the empty string and [all_proxy] set, [get_tools_proxy]
    returns [all_proxy], not the present [tools_proxy]. Reading "present"
    as "set to a non-empty string": with only [all_proxy] given, as the
    empty string, nothing is present and [get_tools_proxy] still does not
    return [None]. *)
Lemma empty_field_falls_through :
  (∃ c, ProxyConfig_init UrlLib.urlparse_model (Some "") None (Some "http://b:2") = Ok c
        ∧ tools_proxy c = Some ""
        ∧ spec_effective (tools_proxy c) (all_proxy c) = Some ""
        ∧ get_tools_proxy c = Some "http://b:2")
  ∧ (∃ c, ProxyConfig_init UrlLib.urlparse_model None None (Some "") = Ok c
          ∧ truthy (tools_proxy c) = false
          ∧ truthy (all_proxy c) = false
          ∧ get_tools_proxy c = Some "").
Proof. split; eexists; repeat split; reflexivity. Qed.

(** A run of C3: the documented precedence examples. *)
Lemma effective_proxy_precedence_witness :
  get_tools_proxy
    {| tools_proxy := Some "http://a:1"; llm_proxy := None; all_proxy := Some "http://b:2" |}
  = Some "http://a:1"
  ∧ get_tools_proxy
      {| tools_proxy := None; llm_proxy := None; all_proxy := Some "http://b:2" |}
    = Some "http://b:2".
Proof.
  split.
  - apply (effective_proxy_precedence
             {| tools_proxy := Some "http://a:1"; llm_proxy := None;
                all_proxy := Some "http://b:2" |}); [reflexivity | discriminate].
  - apply (effective_proxy_precedence
             {| tools_proxy := None; llm_proxy := None;
                all_proxy := Some "http://b:2" |}). by left.
Defined.

(** A run of C4 in [world0]: the old [HTTP_PROXY] is replaced, [PATH] and
    the [STRIX_PROXY_LLM] setting stay. *)
Lemma configure_global_proxies_effect_witness :
  ∃ w', configure_global_proxies UrlLib.urlparse_model world0 = (Ok instance0, w')
        ∧ environ w' !! "HTTP_PROXY" = Some "http://p:8080"
        ∧ environ w' !! "HTTPS_PROXY" = Some "http://p:8080"
        ∧ environ w' !! "PATH" = environ world0 !! "PATH"
        ∧ environ w' !! "STRIX_PROXY_LLM" = environ world0 !! "STRIX_PROXY_LLM".
Proof.
  pose proof (configure_global_proxies_effect UrlLib.urlparse_model world0) as H.
  change (ProxyConfig_init UrlLib.urlparse_model _ _ _) with (Ok config0) in H.
  destruct H as (config & w' & Hload & Hobj & Hcfg & _ & Hset & Hframe & _).
  injection Hload as <-.
  destruct (Hset "http://p:8080") as [Hhttp Hhttps]; [reflexivity | discriminate |].
  exists w'. split; [done|]. split; [done|]. split; [done|].
  split; apply Hframe; discriminate.
Defined.

(** A run of C5 from [world0]: the second call returns [instance0] again
    after [STRIX_PROXY_LLM] was changed, and after the environment was
    emptied. *)
Lemma get_proxy_config_cached_witness :
  ∃ w1, get_proxy_config UrlLib.urlparse_model world0 = (Ok (Some instance0), w1)
        ∧ _global_proxy_config w1 = Some instance0
        ∧ get_proxy_config UrlLib.urlparse_model
            (with_environ (<["STRIX_PROXY_LLM" := "socks5://q:1080"]> (environ w1)) w1)
          = (Ok (Some instance0),
             with_environ (<["STRIX_PROXY_LLM" := "socks5://q:1080"]> (environ w1)) w1)
        ∧ get_proxy_config UrlLib.urlparse_model (with_environ ∅ w1)
          = (Ok (Some instance0), with_environ ∅ w1).
Proof.
  eexists. split; [vm_compute; reflexivity|].
  match goal with
  | |- _ ∧ ?g (with_environ _ ?w) = _ ∧ _ =>
      destruct (get_proxy_config_cached UrlLib.urlparse_model world0 w
                  (Some instance0))
        as (config & [= <-] & Hg & _ & Hlater); [vm_compute; reflexivity|]
  end.
  split; [exact Hg|]. split; apply Hlater.
Defined.

(** A run of C6: an HTTP proxy for tools, a SOCKS catch-all for the LLM. *)
Lemma get_httpx_proxies_shape_witness :
  ∃ c, ProxyConfig_init UrlLib.urlparse_model
         (Some "http://p:8080") None (Some "socks5://p:1080") = Ok c
       ∧ get_httpx_proxies UrlLib.urlparse_model c "tools"
         = Ok (Some [("http://", "http://p:8080"); ("https://", "http://p:8080")])
       ∧ get_httpx_proxies UrlLib.urlparse_model c "llm"
         = Ok (Some [("_socks_proxy", "socks5://p:1080")]).
Proof.
  eexists. split; [reflexivity|]. split.
  - edestruct (get_httpx_proxies_shape UrlLib.urlparse_model
                 (Some "http://p:8080") None (Some "socks5://p:1080") _ Tools eq_refl)
      as [_ H].
    destruct (H "http://p:8080") as (p & Hp & _ & Hhttp); [reflexivity | discriminate |].
    apply Hhttp. injection Hp as <-. intros [Hs | Hs]; discriminate Hs.
  - edestruct (get_httpx_proxies_shape UrlLib.urlparse_model
                 (Some "http://p:8080") None (Some "socks5://p:1080") _ Llm eq_refl)
      as [_ H].
    destruct (H "socks5://p:1080") as (p & Hp & Hsocks & _); [reflexivity | discriminate |].
    apply Hsocks. injection Hp as <-. by left.
Defined.

(** A run of C7: a SOCKS URL is returned under [http] and [https] as it
    is; an LLM-only configuration has nothing for tools. *)
Lemma get_requests_proxies_shape_witness :
  get_requests_proxies
    {| tools_proxy := None; llm_proxy := None; all_proxy := Some "socks5://p:1080" |} "tools"
  = Some [("http", "socks5://p:1080"); ("https", "socks5://p:1080")]
  ∧ get_requests_proxies
      {| tools_proxy := None; llm_proxy := Some "http://p:8080"; all_proxy := None |} "tools"
    = None.
Proof.
  split.
  - apply (get_requests_proxies_shape
             {| tools_proxy := None; llm_proxy := None;
                all_proxy := Some "socks5://p:1080" |} Tools);
      [reflexivity | discriminate].
  - apply (get_requests_proxies_shape
             {| tools_proxy := None; llm_proxy := Some "http://p:8080";
                all_proxy := None |} Tools).
    by left.
Defined.

(** A run of C8: with and without an LLM proxy. *)
Lemma get_litellm_proxy_env_shape_witness :
  get_litellm_proxy_env config0
  = [("HTTP_PROXY", "http://p:8080"); ("HTTPS_PROXY", "http://p:8080")]
  ∧ get_litellm_proxy_env
      {| tools_proxy := Some "http://p:8080"; llm_proxy := None; all_proxy := None |}
    = [].
Proof.
  split.
  - apply (get_litellm_proxy_env_shape config0); [reflexivity | discriminate].
  - apply (get_litellm_proxy_env_shape
             {| tools_proxy := Some "http://p:8080"; llm_proxy := None;
                all_proxy := None |}).
    by left.
Defined.

(** A run of C10: ["llms"], the empty string and ["Tools"] as traffic
    class on a configuration that has an LLM proxy and no tools proxy. *)
Lemma proxy_type_default_llm_witness :
  get_requests_proxies config0 "llms" = get_requests_proxies config0 "llm"
  ∧ get_requests_proxies config0 ""
    = Some [("http", "http://p:8080"); ("https", "http://p:8080")]
  ∧ get_httpx_proxies UrlLib.urlparse_model config0 "Tools"
    = Ok (Some [("http://", "http://p:8080"); ("https://", "http://p:8080")])
  ∧ get_httpx_proxies UrlLib.urlparse_model config0 "tools" = Ok None.
Proof.
  destruct (proxy_type_default_llm UrlLib.urlparse_model) as [Hllm Htotal].
  split; [apply Hllm; discriminate|]. split; [|split].
  - destruct (Hllm config0 "") as (_ & _ & -> & _); [discriminate | reflexivity].
  - destruct (Htotal None (Some "http://p:8080") None config0 "Tools" eq_refl)
      as [_ Hx].
    destruct Hx as [_ Hx]; [discriminate|].
    destruct (Hx "http://p:8080") as (p & Hp & ->); [reflexivity | discriminate |].
    by injection Hp as <-.
  - reflexivity.
Defined.

(** C9, as stated, fails: with nothing but [all_proxy] given, as the empty
    string, the resolution methods do not treat it as absent; they return
    the empty string, where they return [None] for an absent field. *)
Lemma empty_catch_all_is_returned :
  ∃ c, ProxyConfig_init UrlLib.urlparse_model None None (Some "") = Ok c
       ∧ get_tools_proxy c = Some ""
       ∧ get_llm_proxy c = Some ""
       ∧ get_tools_proxy (normalise c) = None
       ∧ get_llm_proxy (normalise c) = None
       ∧ get_tools_proxy
           {| tools_proxy := None; llm_proxy := None; all_proxy := None |} = None.
Proof. eexists. repeat split; reflexivity. Qed.

(** A run of C9: an empty [STRIX_PROXY_TOOLS] beside a catch-all, and an
    empty catch-all alone. *)
Lemma empty_string_as_absent_witness :
  get_tools_proxy
    {| tools_proxy := Some ""; llm_proxy := None; all_proxy := Some "http://b:2" |}
  = Some "http://b:2"
  ∧ get_requests_proxies
      {| tools_proxy := None; llm_proxy := None; all_proxy := Some "" |} "tools"
    = get_requests_proxies
        {| tools_proxy := None; llm_proxy := None; all_proxy := None |} "tools"
  ∧ effective_proxy
      {| tools_proxy := None; llm_proxy := None; all_proxy := Some "" |} Llm
    = Some "".
Proof.
  destruct (empty_string_as_absent UrlLib.urlparse_model)
    as (_ & _ & _ & Htools & _ & Hadapters & _ & Hresolve).
  split; [apply Htools|]. split.
  - apply (Hadapters
             {| tools_proxy := None; llm_proxy := None; all_proxy := Some "" |}).
  - apply (Hresolve
             {| tools_proxy := None; llm_proxy := None; all_proxy := Some "" |} Llm);
      reflexivity.
Defined.

(** ** Concrete runs of the further properties *)

(** A run of X1: the LLM setting lacks a port, the call raises; with the
    environment replaced by [env0] the next call returns a configuration. *)
Lemma get_proxy_config_failure_not_cached_witness :
  ∃ e w1,
    get_proxy_config UrlLib.urlparse_model world_bad = (Raised e, w1)
    ∧ exn_msg e = "Invalid proxy URL in STRIX_PROXY_LLM: http://p"
    ∧ _global_proxy_config w1 = None
    ∧ ∃ config w2,
        get_proxy_config UrlLib.urlparse_model (with_environ env0 w1)
        = (Ok (Some config), w2)
        ∧ obj config = config0.
Proof.
  destruct (get_proxy_config UrlLib.urlparse_model world_bad) as [[r|e] w1] eqn:Hrun.
  { vm_compute in Hrun. discriminate Hrun. }
  destruct (get_proxy_config_failure_not_cached _ _ _ _ Hrun)
    as (_ & _ & Hg & _ & Hnext).
  destruct (Hnext env0 config0) as (config & w2 & Hrun2 & Hobj & _); [reflexivity|].
  exists e, w1. split; [reflexivity|]. split.
  - vm_compute in Hrun. by injection Hrun as <- _.
  - split; [done|]. by exists config, w2.
Defined.

(** A run of X2: [configure_global_proxies] twice from [world0]. *)
Lemma configure_global_proxies_twice_witness :
  ∃ w1 config2 w2,
    configure_global_proxies UrlLib.urlparse_model world0 = (Ok instance0, w1)
    ∧ configure_global_proxies UrlLib.urlparse_model w1 = (Ok config2, w2)
    ∧ obj config2 = config0
    ∧ oid config2 ≠ 0
    ∧ environ w2 = environ w1.
Proof.
  eexists. 
  match goal with
  | |- ∃ config2 w2, ?run = (Ok instance0, ?w) ∧ _ =>
      destruct (configure_global_proxies_twice UrlLib.urlparse_model world0 w
                  instance0)
        as (config2 & w2 & Hrun & Hobj & Hoid & Henv); [vm_compute; reflexivity|]
  end.
  exists config2, w2. split; [vm_compute; reflexivity|]. done.
Defined.

(** A run of X3: only an empty [STRIX_PROXY_TOOLS] and an inherited
    [HTTP_PROXY]; the environment is left as it was. *)
Lemma configure_global_proxies_preserves_witness :
  ∃ r w1,
    configure_global_proxies UrlLib.urlparse_model world_unset = (r, w1)
    ∧ environ w1 = environ world_unset
    ∧ environ w1 !! "HTTP_PROXY" = Some "http://old:3128".
Proof.
  destruct (configure_global_proxies UrlLib.urlparse_model world_unset)
    as [r w1] eqn:Hrun.
  destruct (configure_global_proxies_preserves _ _ _ _ Hrun) as (_ & _ & Hsame).
  exists r, w1. split; [reflexivity|].
  assert (environ w1 = environ world_unset) as -> by (apply Hsame; reflexivity).
  split; reflexivity.
Defined.

(** A run of X4: the SOCKS catch-all handed out for the LLM class is a
    validated URL and sits under the sentinel key. *)
Lemma adapters_emit_validated_witness :
  ∃ c, ProxyConfig_init UrlLib.urlparse_model
         (Some "http://a:1") None (Some "socks5://b:2") = Ok c
       ∧ spec_valid_url UrlLib.urlparse_model "socks5://b:2"
       ∧ ∃ p, UrlLib.urlparse_model "socks5://b:2" = Ok p
              ∧ (scheme p = "socks5" ∨ scheme p = "socks5h").
Proof.
  eexists. split; [reflexivity|].
  edestruct (adapters_emit_validated UrlLib.urlparse_model
               (Some "http://a:1") None (Some "socks5://b:2") _ "llm" eq_refl)
    as (_ & Hx & _).
  destruct (Hx [("_socks_proxy", "socks5://b:2")] "_socks_proxy" "socks5://b:2")
    as (Hv & p & Hp & [[_ Hs] | [[Hk | Hk] _]]);
    [reflexivity | by left | | discriminate Hk | discriminate Hk].
  split; [done|]. by exists p.
Defined.

(** A run of X5: a tools-only configuration has nothing for the LLM class
    in any adapter. *)
Lemma adapters_agree_witness :
  ∃ c, ProxyConfig_init UrlLib.urlparse_model (Some "http://a:1") None None = Ok c
       ∧ get_httpx_proxies UrlLib.urlparse_model c "llm" = Ok None
       ∧ get_litellm_proxy_env c = [].
Proof.
  eexists. split; [reflexivity|].
  edestruct (adapters_agree UrlLib.urlparse_model
               (Some "http://a:1") None None _ "llm" eq_refl)
    as (Hx & _ & Henv).
  split; [by apply Hx | by apply Henv].
Defined.

(** A run of X6: a field assigned an [ftp] URL without port after
    construction is handed out by both methods. *)
Lemma adapters_do_not_validate_witness :
  get_httpx_proxies UrlLib.urlparse_model
    {| tools_proxy := None; llm_proxy := None; all_proxy := Some "ftp://h" |} "tools"
  = Ok (Some [("http://", "ftp://h"); ("https://", "ftp://h")]).
Proof.
  edestruct (adapters_do_not_validate UrlLib.urlparse_model
               {| tools_proxy := None; llm_proxy := None;
                  all_proxy := Some "ftp://h" |} Tools "ftp://h")
    as (_ & _ & Hx); [reflexivity | discriminate |].
  eapply Hx; [reflexivity | discriminate | discriminate].
Defined.

(** A run of X7: port 0. *)
Lemma port_zero_is_missing_witness :
  ProxyConfig_init UrlLib.urlparse_model (Some "http://h:0") None None
  = Raised (ValueError "Invalid proxy URL in STRIX_PROXY_TOOLS: http://h:0"
      (Some (ValueError "Missing port in STRIX_PROXY_TOOLS: http://h:0" None))).
Proof.
  eapply (port_zero_is_missing UrlLib.urlparse_model "http://h:0");
    [discriminate | reflexivity | by left | reflexivity | by left].
Defined.

(** A run of X8: the error for a bad tools URL with and without other
    settings. *)
Lemma later_fields_not_examined_witness :
  ∃ e,
    ProxyConfig_init UrlLib.urlparse_model (Some "nonsense") (Some "worse") None
    = Raised e
    ∧ ProxyConfig_init UrlLib.urlparse_model
        (Some "nonsense") None (Some "http://b:2") = Raised e.
Proof.
  eexists. split; [reflexivity|].
  eapply (proj1 (later_fields_not_examined UrlLib.urlparse_model)
            "nonsense" (Some "worse") None); [discriminate | | reflexivity].
  intros H%(validate_ok_iff UrlLib.urlparse_model _ "STRIX_PROXY_TOOLS").
  vm_compute in H. discriminate H.
Defined.

(** A run of X9 in [world_unset]. *)
Lemma unset_environment_no_proxy_witness :
  ∃ config w1,
    get_proxy_config UrlLib.urlparse_model world_unset = (Ok (Some config), w1)
    ∧ environ w1 = environ world_unset
    ∧ get_requests_proxies (obj config) "tools" = None.
Proof.
  destruct (unset_environment_no_proxy UrlLib.urlparse_model world_unset)
    as (config & w1 & Hrun & Henv & _ & _ & Hnone & _); [reflexivity..|].
  exists config, w1. split; [done|]. split; [done|]. apply Hnone.
Defined.

(** A run of X10: an [ALL_PROXY] variable is not read. *)
Lemma load_reads_three_variables_witness :
  (load_proxy_config UrlLib.urlparse_model
     (with_environ (<["ALL_PROXY" := "http://x:1"]> env0) world0)).1
  = (load_proxy_config UrlLib.urlparse_model world0).1.
Proof.
  apply (load_reads_three_variables UrlLib.urlparse_model world0
           (<["ALL_PROXY" := "http://x:1"]> env0)).
  intros key [<- | [<- | [<- | []]]]; reflexivity.
Defined.

(** A run of X11 from [world0]. *)
Lemma get_proxy_config_first_call_witness :
  ∃ config w1,
    get_proxy_config UrlLib.urlparse_model world0 = (Ok (Some config), w1)
    ∧ obj config = config0
    ∧ environ w1 !! "HTTP_PROXY" = Some "http://p:8080"
    ∧ environ w1 !! "PATH" = Some "/usr/bin".
Proof.
  destruct (get_proxy_config UrlLib.urlparse_model world0) as [[[config|]|e] w1] eqn:Hrun;
    [|vm_compute in Hrun; discriminate Hrun..].
  destruct (get_proxy_config_first_call UrlLib.urlparse_model world0 w1 config
              eq_refl Hrun)
    as (Hobj & _ & _ & Hllm & Hframe).
  exists config, w1. split; [reflexivity|]. split; [by rewrite Hobj|].
  split.
  - apply (Hllm "http://p:8080"); [by rewrite Hobj | discriminate].
  - rewrite Hframe by discriminate. reflexivity.
Defined.
